(** * CTA Bus Tracker client ([main.py]): a shallow embedding and its properties

    The client issues one HTTP GET per call, decodes the body (JSON or XML),
    and turns the records it finds into a pandas [DataFrame].  The embedding
    follows [main.py] statement by statement.  What the program gets from
    outside (the environment variable, the network, the decoders of
    [requests] and [xmltodict], the parts of pandas it does not depend on)
    is collected in the record [Env]; every function below runs against an
    arbitrary [Env], prints into an event log and either returns a value or
    lets an exception escape. *)

From Stdlib Require Import String Ascii List Bool Arith ZArith Lia DecimalString DecimalPos.
Import ListNotations.
Open Scope string_scope.
Open Scope list_scope.

Set Implicit Arguments.
Set Warnings "-register-all".

(* ================================================================== *)
(** ** Python values *)
(* ================================================================== *)

(** Python [str] is modelled by [string]; a character is a code point
    below 256.  [dict] is an association list in insertion order, which is
    the order pandas uses for the columns. *)
Inductive pyval : Type :=
| PyNone
| PyBool  (b : bool)
| PyInt   (z : Z)
| PyFloat (bits : Z)
| PyStr   (s : string)
| PyList  (items : list pyval)
| PyDict  (entries : list (string * pyval)).

Definition record : Type := list (string * pyval).

(** Exception classes.  [HTTPError] to [OtherRequestException] derive from
    [requests.exceptions.RequestException]; every class derives from
    [Exception] (what derives from [BaseException] only, such as
    [KeyboardInterrupt], is not modelled).  The message text of an
    exception is not modelled. *)
Inductive exn : Type :=
| HTTPError
| ConnectionError
| Timeout
| RequestsJSONDecodeError
| OtherRequestException (class : string)
| ExpatError
| KeyError
| TypeError
| AttributeError
| ValueError
| OtherException (class : string).

Definition isinstance_RequestException (e : exn) : bool :=
  match e with
  | HTTPError | ConnectionError | Timeout | RequestsJSONDecodeError
  | OtherRequestException _ => true
  | _ => false
  end.

Definition isinstance_Exception (e : exn) : bool := true.

(** [d[k]] read from an association list: the first entry wins. *)
Fixpoint lookup (k : string) (d : record) : option pyval :=
  match d with
  | [] => None
  | (k', v) :: d' => if String.eqb k k' then Some v else lookup k d'
  end.

Definition keys (d : record) : list string := map fst d.

(** [needle in haystack] on two strings: substring test. *)
Fixpoint is_substring (needle hay : string) : bool :=
  if prefix needle hay then true
  else match hay with
       | EmptyString => false
       | String _ hay' => is_substring needle hay'
       end.

Definition is_str (k : string) (v : pyval) : bool :=
  match v with
  | PyStr s => String.eqb k s
  | _ => false
  end.

(** [k in c] for a string [k]: key membership on a dict, substring test on
    a string, element test on a list, [TypeError] on anything else. *)
Definition contains (k : string) (c : pyval) : exn + bool :=
  match c with
  | PyDict d => inr (existsb (String.eqb k) (keys d))
  | PyStr s => inr (is_substring k s)
  | PyList l => inr (existsb (is_str k) l)
  | _ => inl TypeError
  end.

(** [c.get(k, default)]: only a dict has the method. *)
Definition dict_get (c : pyval) (k : string) (default : pyval) : exn + pyval :=
  match c with
  | PyDict d => inr (match lookup k d with Some v => v | None => default end)
  | _ => inl AttributeError
  end.

(** [c[k]] for a string [k]. *)
Definition getitem (c : pyval) (k : string) : exn + pyval :=
  match c with
  | PyDict d => match lookup k d with Some v => inr v | None => inl KeyError end
  | _ => inl TypeError
  end.

Definition isinstance_list (v : pyval) : bool :=
  match v with
  | PyList _ => true
  | _ => false
  end.

(** *** [str.strip()] *)

(** [str.isspace] on code points below 256: TAB..CR, FS..US, SPACE, NEL
    and NBSP. *)
Definition isspace (c : ascii) : bool :=
  let n := nat_of_ascii c in
  (((9 <=? n) && (n <=? 13)) || ((28 <=? n) && (n <=? 32))
   || (n =? 133) || (n =? 160))%nat.

Fixpoint lstrip (s : string) : string :=
  match s with
  | EmptyString => EmptyString
  | String c s' => if isspace c then lstrip s' else s
  end.

Fixpoint rstrip (s : string) : string :=
  match s with
  | EmptyString => EmptyString
  | String c s' =>
      match rstrip s' with
      | EmptyString => if isspace c then EmptyString else String c EmptyString
      | t => String c t
      end
  end.

Definition strip (s : string) : string := rstrip (lstrip s).

Definition starts_with_space (s : string) : bool :=
  match s with
  | EmptyString => false
  | String c _ => isspace c
  end.

Fixpoint ends_with_space (s : string) : bool :=
  match s with
  | EmptyString => false
  | String c EmptyString => isspace c
  | String _ s' => ends_with_space s'
  end.

(** A name without leading or trailing whitespace. *)
Definition trimmed (s : string) : Prop :=
  starts_with_space s = false /\ ends_with_space s = false.

(** A string of whitespace only (the empty string included). *)
Fixpoint all_space (s : string) : bool :=
  match s with
  | EmptyString => true
  | String c s' => isspace c && all_space s'
  end.

(** [n] is [k] up to trimming: [k] is [n] between two runs of whitespace,
    and [n] itself has no whitespace at its ends. *)
Definition trims_to (k n : string) : Prop :=
  trimmed n /\
  exists pre post,
    k = (pre ++ n ++ post)%string /\ all_space pre = true /\ all_space post = true.

(** *** [str()] and [",".join] on vehicle IDs *)

(** What [get_bus_vehicles] documents as its argument: a list of IDs or
    one comma-separated string.  An element of the list is an integer, a
    string, or any other object; for another object, what [str()] returns
    for it is part of the input. *)
Inductive vehicle_id : Type :=
| VInt (z : Z)
| VStr (s : string)
| VObj (v : pyval) (str_v : string).

Inductive vehicle_ids_arg : Type :=
| IdList (ids : list vehicle_id)
| IdString (s : string).

Definition str (v : vehicle_id) : string :=
  match v with
  | VInt z => NilZero.string_of_int (Z.to_int z)
  | VStr s => s
  | VObj _ str_v => str_v
  end.

Fixpoint join (sep : string) (l : list string) : string :=
  match l with
  | [] => EmptyString
  | [x] => x
  | x :: l' => x ++ sep ++ join sep l'
  end.





(* ================================================================== *)
(** ** pandas *)
(* ================================================================== *)

Module pd.

(** A cell holds the Python object it was given, or NaN where a record
    has no entry for the column.  This is exact for string values, which
    pandas never alters.  It is not for every other value: pandas stores a
    column of numbers in a numeric array (an integer beside a missing entry
    becomes a float), and pandas 3 turns [None] into NaN in a column that
    also holds strings.  What is stated below about the content of a cell
    is therefore stated of string values. *)
Inductive cell : Type :=
| Val (v : pyval)
| NaN.

(** Column labels: an object [Index] of strings (frames built from
    mappings) or a [RangeIndex] of integers 0..stop-1 (frames built
    positionally, and the empty frame since pandas 2.0). *)
Inductive Index : Type :=
| ObjectIndex (labels : list string)
| RangeIndex (stop : nat).

Record DataFrame : Type := mkDataFrame {
  columns : Index;
  rows : list (list cell)
}.

(** [lib.fast_unique_multiple_list_gen(gen, sort=False)]: the keys of all
    records, each once, in order of first appearance. *)
Fixpoint uniques (seen : list string) (ks : list string) : list string :=
  match ks with
  | [] => []
  | k :: ks' =>
      if existsb (String.eqb k) seen then uniques seen ks'
      else k :: uniques (k :: seen) ks'
  end.

Definition fast_unique_multiple_list_gen (gen : list (list string)) : list string :=
  uniques [] (concat gen).

(** [lib.dicts_to_array]: [row.get(col, nan)] for every column. *)
Definition row_of (cols : list string) (r : record) : list cell :=
  map (fun c => match lookup c r with Some v => Val v | None => NaN end) cols.

(** The frame of a non-empty list of mappings. *)
Definition frame_of_records (recs : list record) : DataFrame :=
  let cols := fast_unique_multiple_list_gen (map keys recs) in
  {| columns := ObjectIndex cols; rows := map (row_of cols) recs |}.

(** The mappings of a list, or [None] when some element is not one
    ([x.keys()] then fails: an [AttributeError] up to pandas 2; pandas 3
    reports the same element with a [TypeError]). *)
Fixpoint all_mappings (l : list pyval) : option (list record) :=
  match l with
  | [] => Some []
  | PyDict d :: l' =>
      match all_mappings l' with
      | Some ds => Some (d :: ds)
      | None => None
      end
  | _ :: _ => None
  end.

(** [Index.str.strip()]: the accessor exists on string labels only
    ("Can only use .str accessor with string values!"). *)
Definition str_strip (i : Index) : exn + Index :=
  match i with
  | ObjectIndex labels => inr (ObjectIndex (map strip labels))
  | RangeIndex _ => inl AttributeError
  end.

(** [df.columns = new_columns]. *)
Definition set_columns (df : DataFrame) (i : Index) : DataFrame :=
  {| columns := i; rows := rows df |}.

End pd.

(* ================================================================== *)
(** ** The environment, and programs that run in it *)
(* ================================================================== *)

(** A [requests.Response]: the status code, and the body as the two
    decoders the client uses see it. *)
Record Response : Type := mkResponse {
  status_code : Z;
  json : exn + pyval;            (* response.json() *)
  xmltodict_parse : exn + pyval  (* xmltodict.parse(response.text) *)
}.

Record Env : Type := mkEnv {
  (** [os.getenv("CTA_BUS_KEY")], read once at import: a string or None. *)
  API_KEY : pyval;
  (** [requests.get(url, params=params)]. *)
  requests_get : string -> list (string * pyval) -> exn + Response;
  (** pandas 2.0 changed the columns of a frame built from an empty list
      from an empty object [Index] to [RangeIndex(0)]. *)
  pandas_ge_2 : bool;
  (** [pd.DataFrame(l)] for a list whose first element is not a mapping:
      the frame is built positionally, its columns are a [RangeIndex]. *)
  positional_frame : list pyval -> exn + (nat * list (list pd.cell));
  (** [pd.DataFrame(v)] for a decoded JSON value that is not a list. *)
  nonlist_frame : pyval -> exn + pd.DataFrame
}.

(** What a formatted line interpolates. *)
Inductive fmt_arg : Type :=
| ArgVal (v : pyval)
| ArgExn (e : exn).

Inductive event : Type :=
| HttpGet (url : string) (params : list (string * pyval))
| Print (prefix : string) (arg : fmt_arg).   (* print(f"{prefix}{arg}") *)

(** What a consumer-facing function returns: a Python value ([None], or
    decoded JSON) or a data frame. *)
Inductive pyret : Type :=
| Value (v : pyval)
| Frame (df : pd.DataFrame).

(** A program reads the environment, appends to the event log, and ends
    with a value or with a raised exception. *)
Definition M (A : Type) : Type := Env -> list event * (exn + A).

Definition ret {A} (a : A) : M A := fun _ => ([], inr a).

Definition raise {A} (e : exn) : M A := fun _ => ([], inl e).

Definition bind {A B} (m : M A) (f : A -> M B) : M B :=
  fun env =>
    match m env with
    | (l1, inl e) => (l1, inl e)
    | (l1, inr a) => let (l2, r) := f a env in (l1 ++ l2, r)
    end.

Definition lift {A} (r : exn + A) : M A := fun _ => ([], r).

Declare Scope py_scope.
Delimit Scope py_scope with py.
Notation "x <- c1 ;; c2" := (bind c1 (fun x => c2))
  (at level 61, c1 at next level, right associativity) : py_scope.
Notation "c1 ;; c2" := (bind c1 (fun _ => c2))
  (at level 61, right associativity) : py_scope.
Open Scope py_scope.

(** [try: body  except C1 as e: h1  except C2 as e: h2 ...]: the first
    clause whose class matches handles the exception; what a handler
    raises is not handled by its siblings. *)
Fixpoint handle {A} (clauses : list ((exn -> bool) * (exn -> M A))) (e : exn) : M A :=
  match clauses with
  | [] => raise e
  | (matches, handler) :: clauses' =>
      if matches e then handler e else handle clauses' e
  end.

Definition try_except {A} (body : M A) (clauses : list ((exn -> bool) * (exn -> M A))) : M A :=
  fun env =>
    match body env with
    | (l1, inl e) => let (l2, r) := handle clauses e env in (l1 ++ l2, r)
    | (l1, inr a) => (l1, inr a)
    end.

Definition print (prefix : string) (arg : fmt_arg) : M unit :=
  fun _ => ([Print prefix arg], inr tt).

Definition get (url : string) (params : list (string * pyval)) : M Response :=
  fun env => ([HttpGet url params], requests_get env url params).

Definition getenv_API_KEY : M pyval := fun env => ([], inr (API_KEY env)).

(** [response.raise_for_status()]: [HTTPError] on 4xx and 5xx. *)
Definition raise_for_status (r : Response) : M unit :=
  if ((400 <=? status_code r) && (status_code r <? 600))%Z
  then raise HTTPError else ret tt.

(** [pd.DataFrame(data)], as the constructor dispatches on [data]: the
    empty list gives the empty frame; a list whose first element is a
    mapping is read as a list of records, and [x.keys()] is then called on
    every element; any other list is laid out positionally; what is not a
    list is left to [nonlist_frame]. *)
Definition DataFrame (data : pyval) : M pd.DataFrame :=
  fun env =>
    match data with
    | PyList [] =>
        ([], inr {| pd.columns := if pandas_ge_2 env then pd.RangeIndex 0
                                  else pd.ObjectIndex [];
                    pd.rows := [] |})
    | PyList (PyDict d :: l) =>
        match pd.all_mappings (PyDict d :: l) with
        | Some recs => ([], inr (pd.frame_of_records recs))
        | None => ([], inl AttributeError)
        end
    | PyList l =>
        match positional_frame env l with
        | inr (n, cells) => ([], inr {| pd.columns := pd.RangeIndex n; pd.rows := cells |})
        | inl e => ([], inl e)
        end
    | v => ([], nonlist_frame env v)
    end.

Definition log {A} (run : list event * (exn + A)) : list event := fst run.
Definition outcome {A} (run : list event * (exn + A)) : exn + A := snd run.

(* ================================================================== *)
(** ** The client ([main.py]) *)
(* ================================================================== *)

Definition except_RequestException {A} (h : exn -> M A) := (isinstance_RequestException, h).
Definition except_Exception {A} (h : exn -> M A) := (isinstance_Exception, h).

Definition getroutes_url := "https://www.ctabustracker.com/bustime/api/v3/getroutes".
Definition getvehicles_url := "https://www.ctabustracker.com/bustime/api/v3/getvehicles".
Definition getstops_url := "https://www.ctabustracker.com/bustime/api/v3/getstops".

Definition get_bus_routes : M pyret :=
  let base_url := getroutes_url in
  key <- getenv_API_KEY ;;
  let params := [("key", key); ("format", PyStr "json")] in
  try_except
    (response <- get base_url params ;;
     raise_for_status response ;;
     response <- lift (json response) ;;
     bustime <- lift (getitem response "bustime-response") ;;
     routes <- lift (getitem bustime "routes") ;;
     df <- DataFrame routes ;;
     ret (Frame df))
    [except_RequestException (fun e =>
       print "Error fetching routes: " (ArgExn e) ;;
       ret (Value PyNone))].

Definition get_bus_vehicles (vehicle_ids : vehicle_ids_arg) : M pyret :=
  let base_url := getvehicles_url in
  let vehicle_ids :=
    match vehicle_ids with
    | IdList ids => join "," (map str ids)
    | IdString s => s
    end in
  key <- getenv_API_KEY ;;
  let params := [("key", key); ("vid", PyStr vehicle_ids);
                 ("tmres", PyStr "s"); ("format", PyStr "json")] in
  try_except
    (response <- get base_url params ;;
     raise_for_status response ;;
     body <- lift (json response) ;;
     ret (Value body))
    [except_RequestException (fun e =>
       print "Error fetching vehicle data: " (ArgExn e) ;;
       ret (Value PyNone))].

Definition get_bus_routes_with_key (api_key : pyval) : M pyret :=
  let base_url := getroutes_url in
  let params := [("key", api_key)] in
  try_except
    (response <- get base_url params ;;
     raise_for_status response ;;
     xml_dict <- lift (xmltodict_parse response) ;;
     bustime <- lift (dict_get xml_dict "bustime-response" (PyDict [])) ;;
     has_error <- lift (contains "error" bustime) ;;
     if has_error : bool then
       bustime <- lift (getitem xml_dict "bustime-response") ;;
       error <- lift (getitem bustime "error") ;;
       msg <- lift (getitem error "msg") ;;
       print "API Error: " (ArgVal msg) ;;
       ret (Value PyNone)
     else
       bustime <- lift (dict_get xml_dict "bustime-response" (PyDict [])) ;;
       routes <- lift (dict_get bustime "route" (PyList [])) ;;
       let routes := if negb (isinstance_list routes) then PyList [routes] else routes in
       df <- DataFrame routes ;;
       columns <- lift (pd.str_strip (pd.columns df)) ;;
       let df := pd.set_columns df columns in
       ret (Frame df))
    [except_RequestException (fun e =>
       print "Error fetching routes: " (ArgExn e) ;;
       ret (Value PyNone));
     except_Exception (fun e =>
       print "Error processing response: " (ArgExn e) ;;
       ret (Value PyNone))].

Definition get_bus_stops_with_key (api_key route direction : pyval) : M pyret :=
  let base_url := getstops_url in
  let params := [("key", api_key); ("rt", route); ("dir", direction)] in
  try_except
    (response <- get base_url params ;;
     raise_for_status response ;;
     xml_dict <- lift (xmltodict_parse response) ;;
     bustime <- lift (dict_get xml_dict "bustime-response" (PyDict [])) ;;
     has_error <- lift (contains "error" bustime) ;;
     if has_error : bool then
       bustime <- lift (getitem xml_dict "bustime-response") ;;
       error <- lift (getitem bustime "error") ;;
       msg <- lift (getitem error "msg") ;;
       print "API Error: " (ArgVal msg) ;;
       ret (Value PyNone)
     else
       bustime <- lift (dict_get xml_dict "bustime-response" (PyDict [])) ;;
       stops <- lift (dict_get bustime "stop" (PyList [])) ;;
       let stops := if negb (isinstance_list stops) then PyList [stops] else stops in
       df <- DataFrame stops ;;
       columns <- lift (pd.str_strip (pd.columns df)) ;;
       let df := pd.set_columns df columns in
       ret (Frame df))
    [except_RequestException (fun e =>
       print "Error fetching stops: " (ArgExn e) ;;
       ret (Value PyNone));
     except_Exception (fun e =>
       print "Error processing response: " (ArgExn e) ;;
       ret (Value PyNone))].

(* ================================================================== *)
(** ** Vocabulary of the properties *)
(* ================================================================== *)

(** The two XML operations differ in the URL, the parameters, the record
    key and one message; a call to either of them: *)
Inductive xml_call : Type :=
| RoutesWithKey (api_key : pyval)
| StopsWithKey (api_key route direction : pyval).

Definition run_call (c : xml_call) : M pyret :=
  match c with
  | RoutesWithKey api_key => get_bus_routes_with_key api_key
  | StopsWithKey api_key route direction => get_bus_stops_with_key api_key route direction
  end.

Definition record_key (c : xml_call) : string :=
  match c with
  | RoutesWithKey _ => "route"
  | StopsWithKey _ _ _ => "stop"
  end.

Definition call_url (c : xml_call) : string :=
  match c with
  | RoutesWithKey _ => getroutes_url
  | StopsWithKey _ _ _ => getstops_url
  end.

Definition call_params (c : xml_call) : list (string * pyval) :=
  match c with
  | RoutesWithKey api_key => [("key", api_key)]
  | StopsWithKey api_key route direction =>
      [("key", api_key); ("rt", route); ("dir", direction)]
  end.

Definition fetch_error_prefix (c : xml_call) : string :=
  match c with
  | RoutesWithKey _ => "Error fetching routes: "
  | StopsWithKey _ _ _ => "Error fetching stops: "
  end.

(** The common body of [get_bus_routes_with_key] and
    [get_bus_stops_with_key]; [run_call_fetch_records] shows that either
    function is this one at its own URL, parameters, key and message. *)
Definition fetch_records (base_url : string) (params : list (string * pyval))
    (key : string) (fetch_error : string) : M pyret :=
  try_except
    (response <- get base_url params ;;
     raise_for_status response ;;
     xml_dict <- lift (xmltodict_parse response) ;;
     bustime <- lift (dict_get xml_dict "bustime-response" (PyDict [])) ;;
     has_error <- lift (contains "error" bustime) ;;
     if has_error : bool then
       bustime <- lift (getitem xml_dict "bustime-response") ;;
       error <- lift (getitem bustime "error") ;;
       msg <- lift (getitem error "msg") ;;
       print "API Error: " (ArgVal msg) ;;
       ret (Value PyNone)
     else
       bustime <- lift (dict_get xml_dict "bustime-response" (PyDict [])) ;;
       records <- lift (dict_get bustime key (PyList [])) ;;
       let records := if negb (isinstance_list records) then PyList [records] else records in
       df <- DataFrame records ;;
       columns <- lift (pd.str_strip (pd.columns df)) ;;
       let df := pd.set_columns df columns in
       ret (Frame df))
    [except_RequestException (fun e =>
       print fetch_error (ArgExn e) ;;
       ret (Value PyNone));
     except_Exception (fun e =>
       print "Error processing response: " (ArgExn e) ;;
       ret (Value PyNone))].

(** The envelope a call receives: the transport succeeds with a status
    outside 4xx/5xx, the body parses to a mapping, and the envelope is
    what that mapping holds under [bustime-response] (the empty mapping
    when the key is missing, as [.get("bustime-response", {})] has it). *)
Definition envelope_of (xml_dict : pyval) : option record :=
  match xml_dict with
  | PyDict root =>
      match lookup "bustime-response" root with
      | Some (PyDict envelope) => Some envelope
      | Some _ => None
      | None => Some []
      end
  | _ => None
  end.

Definition received (env : Env) (c : xml_call) : option record :=
  match requests_get env (call_url c) (call_params c) with
  | inr r =>
      if ((400 <=? status_code r) && (status_code r <? 600))%Z then None
      else match xmltodict_parse r with
           | inr xml_dict => envelope_of xml_dict
           | inl _ => None
           end
  | inl _ => None
  end.

Definition has_key (k : string) (d : record) : bool :=
  existsb (String.eqb k) (keys d).

(** The records an envelope holds under a key: none when the key is
    absent, one when the value is a single mapping, the elements when it is
    a sequence of mappings.  Any other value holds no well-formed record
    list. *)
Definition records_in (key : string) (envelope : record) : option (list record) :=
  match lookup key envelope with
  | None => Some []
  | Some (PyDict d) => Some [d]
  | Some (PyList l) => pd.all_mappings l
  | Some _ => None
  end.

(** The table of a list of records: one row per record, one column per
    field name, the names stripped. *)
Definition normalized_table (recs : list record) : pd.DataFrame :=
  let df := pd.frame_of_records recs in
  match pd.columns df with
  | pd.ObjectIndex labels => pd.set_columns df (pd.ObjectIndex (map strip labels))
  | pd.RangeIndex _ => df
  end.

Definition labels (df : pd.DataFrame) : list string :=
  match pd.columns df with
  | pd.ObjectIndex l => l
  | pd.RangeIndex _ => []
  end.

(** [df.iat[i, j]]: the cell in row [i], column position [j]. *)
Definition iat (df : pd.DataFrame) (i j : nat) : option pd.cell :=
  match nth_error (pd.rows df) i with
  | Some row => nth_error row j
  | None => None
  end.

(** A record as the data model of the specification has it: field names
    without surrounding whitespace, string values. *)
Definition string_valued (r : record) : Prop :=
  Forall (fun kv => exists s, snd kv = PyStr s) r.

Definition well_formed (r : record) : Prop :=
  Forall trimmed (keys r) /\ string_valued r.

(** *** Environments used in the examples *)

Definition xml_body (envelope : pyval) : Response :=
  {| status_code := 200;
     json := inl RequestsJSONDecodeError;
     xmltodict_parse := inr (PyDict [("bustime-response", envelope)]) |}.

Definition json_body (v : pyval) : Response :=
  {| status_code := 200;
     json := inr v;
     xmltodict_parse := inl ExpatError |}.

Definition server_error : Response :=
  {| status_code := 500;
     json := inl RequestsJSONDecodeError;
     xmltodict_parse := inl ExpatError |}.

(** An environment whose server answers every request with [r]. *)
Definition serving (pandas2 : bool) (r : Response) : Env :=
  {| API_KEY := PyStr "k";
     requests_get := fun _ _ => inr r;
     pandas_ge_2 := pandas2;
     positional_frame := fun l => inr (1%nat, map (fun v => [pd.Val v]) l);
     nonlist_frame := fun _ => inl ValueError |}.

Definition sheridan : record := [("rt", PyStr "151"); ("rtnm", PyStr "Sheridan")].
Definition broadway : record := [("rt", PyStr "36"); ("rtnm", PyStr "Broadway")].

(** *** Postconditions *)

(** Whatever [m] returns satisfies [P] (nothing is said when it raises). *)
Definition ensures {A} (m : M A) (P : A -> Prop) : Prop :=
  forall env a, outcome (m env) = inr a -> P a.

(** [m] returns in every environment. *)
Definition never_raises {A} (m : M A) : Prop :=
  forall env, exists a, outcome (m env) = inr a.

Definition table_or_None (r : pyret) : Prop :=
  r = Value PyNone \/ exists df, r = Frame df.

(** The upstream error envelope, in its XML and its JSON form. *)
Definition error_envelope (msg : string) : pyval :=
  PyDict [("error", PyDict [("msg", PyStr msg)])].

Definition error_json (msg : string) : pyval :=
  PyDict [("bustime-response",
           PyDict [("error", PyList [PyDict [("msg", PyStr msg)]])])].

Definition vehicles_json : pyval :=
  PyDict [("bustime-response",
           PyDict [("vehicle",
                    PyList [PyDict [("vid", PyStr "1234"); ("rt", PyStr "151");
                                    ("lat", PyStr "41.88"); ("lon", PyStr "-87.63")]])])].

Definition padded_stop : record :=
  [(" stpid ", PyStr "1106"); ("stpnm", PyStr "Sheridan & Foster")].

(** *** The JSON requests *)

(** The parameters [get_bus_routes] and [get_bus_vehicles] send. *)
Definition routes_params (env : Env) : list (string * pyval) :=
  [("key", API_KEY env); ("format", PyStr "json")].

Definition vid_parameter (ids : vehicle_ids_arg) : string :=
  match ids with
  | IdList l => join "," (map str l)
  | IdString s => s
  end.

Definition vehicles_params (env : Env) (ids : vehicle_ids_arg) : list (string * pyval) :=
  [("key", API_KEY env); ("vid", PyStr (vid_parameter ids));
   ("tmres", PyStr "s"); ("format", PyStr "json")].

(** An environment whose network fails every request with [e]. *)
Definition failing_with (e : exn) : Env :=
  {| API_KEY := PyStr "k";
     requests_get := fun _ _ => inl e;
     pandas_ge_2 := true;
     positional_frame := fun l => inr (1%nat, map (fun v => [pd.Val v]) l);
     nonlist_frame := fun _ => inl ValueError |}.

(** *** The script ([if __name__ == "__main__"]) *)

(** What the script writes and does: what the two operations it calls do,
    and its own two kinds of [print]. *)
Inductive main_event : Type :=
| Op (e : event)
| PrintStr (s : string)       (* print("...") *)
| PrintObj (r : pyret).       (* print(df) *)

Definition is_not_None (r : pyret) : bool :=
  match r with
  | Value PyNone => false
  | _ => true
  end.

Definition newline : string := String (ascii_of_nat 10) EmptyString.

Definition main : Env -> list main_event * (exn + unit) :=
  fun env =>
    let (l1, r1) := get_bus_routes_with_key (API_KEY env) env in
    match r1 with
    | inl e => (map Op l1, inl e)
    | inr routes_df =>
        let p1 := if is_not_None routes_df
                  then [PrintStr (newline ++ "Routes DataFrame:"); PrintObj routes_df]
                  else [] in
        let (l2, r2) :=
          get_bus_stops_with_key (API_KEY env) (PyStr "151") (PyStr "Northbound") env in
        match r2 with
        | inl e => (map Op l1 ++ p1 ++ map Op l2, inl e)
        | inr stops_df =>
            let p2 := if is_not_None stops_df
                      then [PrintStr (newline ++ "Stops DataFrame:"); PrintObj stops_df]
                      else [] in
            (map Op l1 ++ p1 ++ map Op l2 ++ p2, inr tt)
        end
    end.

(** What the script writes around one call: the events of the call, and
    after a table the title line and the table; after [None] nothing of
    its own. *)
Definition section_of (env : Env) (c : xml_call) (title : string)
    (o : list main_event) : Prop :=
  (exists df,
     run_call c env = ([HttpGet (call_url c) (call_params c)], inr (Frame df)) /\
     o = [Op (HttpGet (call_url c) (call_params c));
          PrintStr (newline ++ title)%string; PrintObj (Frame df)]) \/
  (exists prefix arg,
     run_call c env =
       ([HttpGet (call_url c) (call_params c); Print prefix arg], inr (Value PyNone)) /\
     o = [Op (HttpGet (call_url c) (call_params c)); Op (Print prefix arg)]).

(** The requests among the events of the script, in order. *)
Fixpoint requests_of (l : list main_event) : list event :=
  match l with
  | [] => []
  | Op (HttpGet url params) :: l' => HttpGet url params :: requests_of l'
  | _ :: l' => requests_of l'
  end.

(** The frames the script prints, in order. *)
Fixpoint frames_printed (l : list main_event) : list pd.DataFrame :=
  match l with
  | [] => []
  | PrintObj (Frame df) :: l' => df :: frames_printed l'
  | _ :: l' => frames_printed l'
  end.

(** The frames two results hold, in order. *)
Definition frames_of (rs : list (exn + pyret)) : list pd.DataFrame :=
  flat_map (fun r => match r with inr (Frame df) => [df] | _ => [] end) rs.

Definition two_errors : pyval :=
  PyList [PyDict [("rt", PyStr "999"); ("msg", PyStr "Invalid route")];
          PyDict [("dir", PyStr "Up"); ("msg", PyStr "Invalid direction")]].

Definition foster : record :=
  [("stpid", PyStr "1106"); ("stpnm", PyStr "Sheridan & Foster")].

Definition stop_without_name : record := [("stpid", PyStr "1107")].

(** *** Tactics that run a program *)

(** One step of the program: unfold the monad and the Python primitives
    that do not look into a mapping. *)
Ltac run_steps :=
  cbv beta iota zeta delta
    [fetch_records try_except bind get raise_for_status lift ret raise print
     handle except_RequestException except_Exception contains
     isinstance_Exception isinstance_list negb app fst snd log outcome].

(** What a [match] of the program may branch on: a variable, or an answer
    of the environment or of a mapping. *)
Ltac atomic_scrutinee x :=
  first
    [ is_var x
    | lazymatch x with
      | requests_get _ _ _ => idtac
      | xmltodict_parse _ => idtac
      | json _ => idtac
      | lookup _ _ => idtac
      | existsb _ _ => idtac
      | is_substring _ _ => idtac
      | pd.all_mappings _ => idtac
      | positional_frame _ _ => idtac
      | nonlist_frame _ _ => idtac
      | pandas_ge_2 _ => idtac
      | andb _ _ => idtac
      | isinstance_RequestException _ => idtac
      end ].

(** Follow every path of the program in hypothesis [H], dropping the paths
    that contradict it. *)
Ltac crunch H :=
  repeat (cbv beta iota zeta delta
            [fetch_records try_except bind get raise_for_status lift ret raise print
             handle except_RequestException except_Exception contains getitem dict_get
             isinstance_Exception isinstance_list negb app fst snd log outcome
             DataFrame pd.str_strip pd.columns pd.frame_of_records] in H;
          try discriminate H;
          match type of H with
          | context [match ?x with _ => _ end] =>
              atomic_scrutinee x; destruct x eqn:?
          end).

(* ================================================================== *)
(** ** Strings: [strip] *)
(* ================================================================== *)

Lemma lstrip_no_leading_space (s : string) : starts_with_space (lstrip s) = false.
Proof.
  induction s as [|c s IH]; simpl; [reflexivity|].
  destruct (isspace c) eqn:Hc; [exact IH | simpl; exact Hc].
Qed.

Lemma rstrip_no_trailing_space (s : string) : ends_with_space (rstrip s) = false.
Proof.
  induction s as [|c s IH]; simpl; [reflexivity|].
  destruct (rstrip s) as [|c' t] eqn:Hr.
  - destruct (isspace c) eqn:Hc; simpl; [reflexivity | exact Hc].
  - exact IH.
Qed.

Lemma rstrip_keeps_head (s : string) :
  starts_with_space s = false -> starts_with_space (rstrip s) = false.
Proof.
  destruct s as [|c s]; simpl; [reflexivity|].
  intros Hc. destruct (rstrip s); [rewrite Hc|]; simpl; exact Hc.
Qed.

Lemma strip_trimmed (s : string) : trimmed (strip s).
Proof.
  split.
  - apply rstrip_keeps_head, lstrip_no_leading_space.
  - apply rstrip_no_trailing_space.
Qed.

Lemma lstrip_id (s : string) : starts_with_space s = false -> lstrip s = s.
Proof.
  destruct s as [|c s]; simpl; [reflexivity|]. intros ->. reflexivity.
Qed.

Lemma rstrip_id (s : string) : ends_with_space s = false -> rstrip s = s.
Proof.
  induction s as [|c s IH]; simpl; [reflexivity|].
  destruct s as [|c' s'].
  - simpl. intros ->. reflexivity.
  - intros H. rewrite (IH H). reflexivity.
Qed.

Lemma strip_id (s : string) : trimmed s -> strip s = s.
Proof.
  intros [Hl Hr]. unfold strip. rewrite (lstrip_id _ Hl). apply rstrip_id, Hr.
Qed.

Lemma map_strip_id (l : list string) : Forall trimmed l -> map strip l = l.
Proof.
  induction 1 as [|k l Hk _ IH]; simpl; [reflexivity|].
  rewrite (strip_id Hk), IH. reflexivity.
Qed.

(** [strip] removes whitespace at the two ends and nothing else. *)
Lemma lstrip_spec (s : string) :
  exists pre, s = (pre ++ lstrip s)%string /\ all_space pre = true.
Proof.
  induction s as [|c s [pre [Hs Hpre]]]; cbn [lstrip].
  - exists EmptyString. split; reflexivity.
  - destruct (isspace c) eqn:Hc.
    + exists (String c pre). cbn. rewrite Hc, Hpre, <- Hs. split; reflexivity.
    + exists EmptyString. split; reflexivity.
Qed.

Lemma rstrip_spec (s : string) :
  exists post, s = (rstrip s ++ post)%string /\ all_space post = true.
Proof.
  induction s as [|c s [post [Hs Hpost]]]; cbn [rstrip].
  - exists EmptyString. split; reflexivity.
  - destruct (rstrip s) as [|c' t] eqn:Hr.
    + cbn in Hs. subst s. destruct (isspace c) eqn:Hc.
      * exists (String c post). cbn. rewrite Hc, Hpost. split; reflexivity.
      * exists post. split; [reflexivity | exact Hpost].
    + exists post. cbn. rewrite Hs at 1. split; [reflexivity | exact Hpost].
Qed.

Lemma strip_trims_to (k : string) : trims_to k (strip k).
Proof.
  split; [apply strip_trimmed|].
  destruct (lstrip_spec k) as [pre [Hk Hpre]].
  destruct (rstrip_spec (lstrip k)) as [post [Hl Hpost]].
  exists pre, post. split; [|split; assumption].
  unfold strip. rewrite <- Hl. exact Hk.
Qed.

Lemma lstrip_all_space (s : string) : all_space s = true -> lstrip s = EmptyString.
Proof.
  induction s as [|c s IH]; cbn; [reflexivity|].
  intros H. apply andb_true_iff in H. destruct H as [Hc Hs]. rewrite Hc. exact (IH Hs).
Qed.

Lemma rstrip_all_space (s : string) : all_space s = true -> rstrip s = EmptyString.
Proof.
  induction s as [|c s IH]; cbn; [reflexivity|].
  intros H. apply andb_true_iff in H. destruct H as [Hc Hs]. rewrite (IH Hs), Hc. reflexivity.
Qed.

Lemma lstrip_app_space (pre s : string) :
  all_space pre = true -> lstrip (pre ++ s) = lstrip s.
Proof.
  induction pre as [|c pre IH]; cbn; [reflexivity|].
  intros H. apply andb_true_iff in H. destruct H as [Hc Hpre]. rewrite Hc. exact (IH Hpre).
Qed.

Lemma rstrip_app_space (s post : string) :
  all_space post = true -> rstrip (s ++ post) = rstrip s.
Proof.
  intros Hpost. induction s as [|c s IH]; cbn.
  - apply rstrip_all_space, Hpost.
  - rewrite IH. reflexivity.
Qed.

Lemma trims_to_strip (k n : string) : trims_to k n -> n = strip k.
Proof.
  intros [[Hl Hr] (pre & post & -> & Hpre & Hpost)].
  unfold strip. rewrite lstrip_app_space by exact Hpre.
  destruct n as [|c n].
  - cbn. rewrite lstrip_all_space by exact Hpost. reflexivity.
  - cbn in Hl. cbn [append lstrip]. rewrite Hl.
    change (String c (n ++ post)) with (String c n ++ post)%string.
    rewrite rstrip_app_space by exact Hpost. symmetry. apply rstrip_id, Hr.
Qed.

(* ================================================================== *)
(** ** Mappings and column labels *)
(* ================================================================== *)

Lemma existsb_eqb_In (k : string) (l : list string) :
  existsb (String.eqb k) l = true <-> In k l.
Proof.
  rewrite existsb_exists. split.
  - intros [x [Hin Heq]]. apply String.eqb_eq in Heq. subst. exact Hin.
  - intros Hin. exists k. split; [exact Hin | apply String.eqb_refl].
Qed.

Lemma lookup_In_keys (k : string) (d : record) (v : pyval) :
  lookup k d = Some v -> In k (keys d).
Proof.
  induction d as [|[k' v'] d IH]; simpl; [discriminate|].
  destruct (String.eqb_spec k k') as [->|Hne].
  - intros _. left. reflexivity.
  - intros H. right. exact (IH H).
Qed.

Lemma lookup_None_has_key (k : string) (d : record) :
  lookup k d = None <-> has_key k d = false.
Proof.
  unfold has_key. induction d as [|[k' v'] d IH]; simpl; [tauto|].
  destruct (String.eqb k k'); simpl; [split; discriminate | exact IH].
Qed.

Lemma In_uniques (x : string) (ks seen : list string) :
  In x (pd.uniques seen ks) <-> In x ks /\ ~ In x seen.
Proof.
  revert seen. induction ks as [|k ks IH]; intros seen; simpl; [tauto|].
  destruct (existsb (String.eqb k) seen) eqn:Hk.
  - apply (proj1 (existsb_eqb_In k seen)) in Hk. rewrite IH. split.
    + intros [H1 H2]. tauto.
    + intros [[->|H1] H2]; tauto.
  - assert (Hk' : ~ In k seen).
    { intros Hin. apply (proj2 (existsb_eqb_In k seen)) in Hin. congruence. }
    simpl. rewrite IH. simpl. split.
    + intros [<-|[H1 H2]]; tauto.
    + intros [[<-|H1] H2]; [tauto|].
      destruct (string_dec k x) as [->|Hne]; [tauto|]. right. tauto.
Qed.

Lemma In_fast_unique (x : string) (gen : list (list string)) :
  In x (pd.fast_unique_multiple_list_gen gen) <-> exists l, In l gen /\ In x l.
Proof.
  unfold pd.fast_unique_multiple_list_gen. rewrite In_uniques, in_concat.
  simpl. tauto.
Qed.

Lemma NoDup_uniques (ks seen : list string) : NoDup (pd.uniques seen ks).
Proof.
  revert seen. induction ks as [|k ks IH]; intros seen; simpl; [constructor|].
  destruct (existsb (String.eqb k) seen); [apply IH|].
  constructor; [|apply IH]. rewrite In_uniques. simpl. tauto.
Qed.

Lemma all_mappings_spec (l : list pyval) (recs : list record) :
  pd.all_mappings l = Some recs <-> l = map PyDict recs.
Proof.
  revert recs. induction l as [|v l IH]; intros recs; simpl.
  - split; [intros [= <-]; reflexivity | destruct recs; [reflexivity|discriminate]].
  - destruct v; try (split; [discriminate | destruct recs; discriminate]).
    split.
    + destruct (pd.all_mappings l) as [ds|]; [|discriminate].
      intros [= <-]. simpl. f_equal. apply IH. reflexivity.
    + destruct recs as [|r recs]; [discriminate|]. simpl. intros [= -> Hrest].
      apply IH in Hrest. rewrite Hrest. reflexivity.
Qed.

(* ================================================================== *)
(** ** Running the two XML operations *)
(* ================================================================== *)

Lemma run_call_fetch_records (c : xml_call) :
  run_call c = fetch_records (call_url c) (call_params c) (record_key c) (fetch_error_prefix c).
Proof. destruct c; reflexivity. Qed.

Lemma received_inv (env : Env) (c : xml_call) (envelope : record) :
  received env c = Some envelope ->
  exists r xml_dict,
    requests_get env (call_url c) (call_params c) = inr r /\
    ((400 <=? status_code r) && (status_code r <? 600))%Z = false /\
    xmltodict_parse r = inr xml_dict /\
    envelope_of xml_dict = Some envelope.
Proof.
  unfold received.
  destruct (requests_get env (call_url c) (call_params c)) as [e|r]; [discriminate|].
  destruct ((400 <=? status_code r) && (status_code r <? 600))%Z eqn:Hs; [discriminate|].
  destruct (xmltodict_parse r) as [e|x] eqn:Hx; [discriminate|].
  intros H. exists r, x. auto.
Qed.

Lemma envelope_of_get (xml_dict : pyval) (envelope : record) :
  envelope_of xml_dict = Some envelope ->
  dict_get xml_dict "bustime-response" (PyDict []) = inr (PyDict envelope).
Proof.
  destruct xml_dict as [| | | | | |root]; simpl; try discriminate.
  destruct (lookup "bustime-response" root) as [v|]; [|intros [= <-]; reflexivity].
  destruct v; try discriminate. intros [= <-]. reflexivity.
Qed.

Lemma DataFrame_records (env : Env) (recs : list record) :
  recs <> [] ->
  DataFrame (PyList (map PyDict recs)) env = ([], inr (pd.frame_of_records recs)).
Proof.
  destruct recs as [|r recs]; [contradiction|]. intros _.
  unfold DataFrame. cbn [map].
  rewrite (proj2 (all_mappings_spec (PyDict r :: map PyDict recs) (r :: recs)) eq_refl).
  reflexivity.
Qed.

Lemma run_call_records (env : Env) (c : xml_call) (envelope : record) (recs : list record) :
  received env c = Some envelope ->
  has_key "error" envelope = false ->
  records_in (record_key c) envelope = Some recs ->
  recs <> [] ->
  run_call c env = ([HttpGet (call_url c) (call_params c)], inr (Frame (normalized_table recs))).
Proof.
  intros Hrecv Herr Hrecs Hne.
  destruct (received_inv _ _ Hrecv) as (r & x & Hget & Hstatus & Hparse & Henv).
  apply envelope_of_get in Henv.
  rewrite run_call_fetch_records.
  run_steps.
  rewrite Hget, Hstatus. run_steps. rewrite Hparse. run_steps. rewrite Henv. run_steps.
  unfold has_key in Herr. rewrite Herr. run_steps.
  unfold records_in in Hrecs. cbv beta iota delta [dict_get].
  destruct (lookup (record_key c) envelope) as [v|]; [|congruence].
  destruct v as [| | | | |items|d]; try discriminate.
  - apply all_mappings_spec in Hrecs. subst items.
    run_steps. rewrite (DataFrame_records env Hne). reflexivity.
  - injection Hrecs as <-.
    run_steps. change [PyDict d] with (map PyDict [d]).
    rewrite (DataFrame_records env (recs := [d])) by discriminate.
    reflexivity.
Qed.

Lemma records_in_nil (key : string) (envelope : record) :
  records_in key envelope = Some [] ->
  dict_get (PyDict envelope) key (PyList []) = inr (PyList []).
Proof.
  unfold records_in, dict_get.
  destruct (lookup key envelope) as [v|]; [|reflexivity].
  destruct v; try discriminate.
  intros H. apply all_mappings_spec in H. subst. reflexivity.
Qed.

Lemma run_call_no_records (env : Env) (c : xml_call) (envelope : record) :
  received env c = Some envelope ->
  has_key "error" envelope = false ->
  records_in (record_key c) envelope = Some [] ->
  run_call c env =
    if pandas_ge_2 env
    then ([HttpGet (call_url c) (call_params c);
           Print "Error processing response: " (ArgExn AttributeError)],
          inr (Value PyNone))
    else ([HttpGet (call_url c) (call_params c)],
          inr (Frame (normalized_table []))).
Proof.
  intros Hrecv Herr Hrecs.
  destruct (received_inv _ _ Hrecv) as (r & x & Hget & Hstatus & Hparse & Henv).
  apply envelope_of_get in Henv. apply records_in_nil in Hrecs.
  rewrite run_call_fetch_records.
  run_steps.
  rewrite Hget, Hstatus. run_steps. rewrite Hparse. run_steps. rewrite Henv. run_steps.
  unfold has_key in Herr. rewrite Herr. run_steps. rewrite Hrecs. run_steps.
  unfold DataFrame. destruct (pandas_ge_2 env); reflexivity.
Qed.

Lemma envelope_of_getitem (xml_dict : pyval) (envelope : record) :
  envelope_of xml_dict = Some envelope ->
  has_key "error" envelope = true ->
  getitem xml_dict "bustime-response" = inr (PyDict envelope).
Proof.
  destruct xml_dict as [| | | | | |root]; simpl; try discriminate.
  destruct (lookup "bustime-response" root) as [v|].
  - destruct v; try discriminate. intros [= <-]. reflexivity.
  - intros [= <-]. discriminate.
Qed.

Lemma run_call_error (env : Env) (c : xml_call) (envelope : record) :
  received env c = Some envelope ->
  has_key "error" envelope = true ->
  exists line,
    run_call c env = ([HttpGet (call_url c) (call_params c); line], inr (Value PyNone)) /\
    forall err msg,
      lookup "error" envelope = Some (PyDict err) ->
      lookup "msg" err = Some msg ->
      line = Print "API Error: " (ArgVal msg).
Proof.
  intros Hrecv Herr.
  destruct (received_inv _ _ Hrecv) as (r & x & Hget & Hstatus & Hparse & Henv).
  pose proof (envelope_of_getitem _ Henv Herr) as Hitem.
  apply envelope_of_get in Henv.
  rewrite run_call_fetch_records.
  run_steps.
  rewrite Hget, Hstatus. run_steps. rewrite Hparse. run_steps. rewrite Henv. run_steps.
  unfold has_key in Herr. rewrite Herr. run_steps. rewrite Hitem. run_steps.
  cbv beta iota delta [getitem].
  destruct (lookup "error" envelope) as [e|]; run_steps.
  - destruct e as [| | | | | |d]; run_steps;
      try (eexists; split; [reflexivity | intros err msg [= ]]).
    destruct (lookup "msg" d) as [m|] eqn:Hm; run_steps;
      (eexists; split; [reflexivity | intros err msg H1 H2; congruence]).
  - eexists; split; [reflexivity | intros err msg [= ]].
Qed.

(* ================================================================== *)
(** ** Postconditions of programs *)
(* ================================================================== *)

Lemma ensures_ret {A} (a : A) (P : A -> Prop) : P a -> ensures (ret a) P.
Proof. intros Ha env a' [= <-]. exact Ha. Qed.

Lemma ensures_bind {A B} (m : M A) (f : A -> M B) (P : B -> Prop) :
  (forall a, ensures (f a) P) -> ensures (bind m f) P.
Proof.
  intros Hf env b. unfold outcome, bind.
  destruct (m env) as [l1 [e|a]]; cbn [snd]; [discriminate|].
  specialize (Hf a env b). unfold outcome in Hf.
  destruct (f a env) as [l2 r]. exact Hf.
Qed.

Lemma ensures_try_except {A} (body : M A) clauses (P : A -> Prop) :
  ensures body P ->
  (forall e, ensures (handle clauses e) P) ->
  ensures (try_except body clauses) P.
Proof.
  intros Hbody Hh env a. unfold outcome, try_except.
  specialize (Hbody env a). unfold outcome in Hbody.
  destruct (body env) as [l1 [e|a']]; cbn [snd] in *; [|exact Hbody].
  specialize (Hh e env a). unfold outcome in Hh.
  destruct (handle clauses e env) as [l2 r]. exact Hh.
Qed.

Lemma never_raises_try_except {A} (body : M A) clauses :
  (forall e, never_raises (handle clauses e)) ->
  never_raises (try_except body clauses).
Proof.
  intros Hh env. unfold outcome, try_except.
  destruct (body env) as [l1 [e|a]]; cbn [snd]; [|eauto].
  destruct (Hh e env) as [a Ha]. unfold outcome in Ha.
  destruct (handle clauses e env) as [l2 r]. eauto.
Qed.

Lemma fetch_records_handlers_return (fetch_error : string) (e : exn) (env : Env) :
  exists line,
    handle
      [except_RequestException (fun e =>
         print fetch_error (ArgExn e) ;; ret (Value PyNone));
       except_Exception (fun e =>
         print "Error processing response: " (ArgExn e) ;; ret (Value PyNone))]
      e env = ([line], inr (Value PyNone)).
Proof.
  run_steps. destruct (isinstance_RequestException e); eexists; reflexivity.
Qed.

Lemma fetch_records_total (url : string) params (key fetch_error : string) (env : Env) :
  exists r, outcome (fetch_records url params key fetch_error env) = inr r /\ table_or_None r.
Proof.
  assert (Hnr : never_raises (fetch_records url params key fetch_error)).
  { apply never_raises_try_except. intros e env'.
    destruct (fetch_records_handlers_return fetch_error e env') as [line ->].
    eexists. reflexivity. }
  destruct (Hnr env) as [r Hr]. exists r. split; [exact Hr|].
  clear Hnr. revert env r Hr. change (ensures (fetch_records url params key fetch_error) table_or_None).
  apply ensures_try_except.
  - repeat (apply ensures_bind; intros).
    match goal with
    | |- ensures (if ?b then _ else _) _ => destruct b
    end.
    + repeat (apply ensures_bind; intros). apply ensures_ret. left. reflexivity.
    + repeat (apply ensures_bind; intros). apply ensures_ret. right. eauto.
  - intros e env' r.
    destruct (fetch_records_handlers_return fetch_error e env') as [line ->].
    intros [= <-]. left. reflexivity.
Qed.

Lemma run_call_frame_inv (env : Env) (c : xml_call) (df : pd.DataFrame) :
  outcome (run_call c env) = inr (Frame df) ->
  exists envelope recs,
    received env c = Some envelope /\
    has_key "error" envelope = false /\
    records_in (record_key c) envelope = Some recs /\
    df = normalized_table recs.
Proof.
  rewrite run_call_fetch_records. intros H. unfold received, envelope_of, has_key, records_in.
  crunch H.
  all: try match goal with
           | Hm : pd.all_mappings [PyDict _] = Some _ |- _ =>
               cbn [pd.all_mappings] in Hm; injection Hm as <-
           end.
  all: injection H as <-; eexists _, _; split; [reflexivity|];
    split; [first [assumption | reflexivity]|];
    split;
    [ match goal with
      | Hl : lookup (record_key _) _ = _ |- _ => rewrite Hl
      end; first [reflexivity | eassumption]
    | reflexivity ].
Qed.

(* ================================================================== *)
(** ** The normalized table *)
(* ================================================================== *)

Lemma normalized_table_eq (recs : list record) :
  normalized_table recs =
    let cols := pd.fast_unique_multiple_list_gen (map keys recs) in
    {| pd.columns := pd.ObjectIndex (map strip cols);
       pd.rows := map (pd.row_of cols) recs |}.
Proof. reflexivity. Qed.

Lemma normalized_table_length (recs : list record) :
  length (pd.rows (normalized_table recs)) = length recs.
Proof. rewrite normalized_table_eq. cbn. apply length_map. Qed.

Lemma normalized_table_labels (recs : list record) :
  labels (normalized_table recs) =
    map strip (pd.fast_unique_multiple_list_gen (map keys recs)).
Proof. reflexivity. Qed.

Lemma normalized_table_labels_trimmed (recs : list record) :
  Forall trimmed (labels (normalized_table recs)).
Proof.
  rewrite normalized_table_labels. apply Forall_forall. intros n Hn.
  apply in_map_iff in Hn. destruct Hn as [k [<- _]]. apply strip_trimmed.
Qed.

Lemma normalized_table_label_set (recs : list record) (n : string) :
  In n (labels (normalized_table recs)) <->
  exists r k, In r recs /\ In k (keys r) /\ n = strip k.
Proof.
  rewrite normalized_table_labels, in_map_iff. split.
  - intros [k [<- Hk]]. apply In_fast_unique in Hk. destruct Hk as [l [Hl Hk]].
    apply in_map_iff in Hl. destruct Hl as [r [<- Hr]]. exists r, k. auto.
  - intros [r [k [Hr [Hk ->]]]]. exists k. split; [reflexivity|].
    apply In_fast_unique. exists (keys r). split; [apply in_map, Hr | exact Hk].
Qed.

(** The cell of a field: the column that the field name opened, in the row
    of its record, holds the value itself. *)
Lemma normalized_table_cell (recs : list record) (i : nat) (r : record)
    (k : string) (v : pyval) :
  nth_error recs i = Some r ->
  lookup k r = Some v ->
  exists j,
    nth_error (pd.fast_unique_multiple_list_gen (map keys recs)) j = Some k /\
    nth_error (labels (normalized_table recs)) j = Some (strip k) /\
    iat (normalized_table recs) i j = Some (pd.Val v).
Proof.
  intros Hi Hk.
  assert (Hin : In k (pd.fast_unique_multiple_list_gen (map keys recs))).
  { apply In_fast_unique. exists (keys r). split.
    - apply in_map. eapply nth_error_In. exact Hi.
    - eapply lookup_In_keys. exact Hk. }
  destruct (In_nth_error _ _ Hin) as [j Hj]. exists j.
  split; [exact Hj|]. split.
  - rewrite normalized_table_labels. apply map_nth_error. exact Hj.
  - unfold iat. rewrite normalized_table_eq. cbn.
    rewrite (map_nth_error _ _ _ Hi). unfold pd.row_of.
    rewrite (map_nth_error _ _ _ Hj). rewrite Hk. reflexivity.
Qed.

Lemma well_formed_labels (recs : list record) :
  Forall well_formed recs ->
  labels (normalized_table recs) = pd.fast_unique_multiple_list_gen (map keys recs).
Proof.
  intros Hwf. rewrite normalized_table_labels. apply map_strip_id.
  apply Forall_forall. intros k Hk. apply In_fast_unique in Hk.
  destruct Hk as [l [Hl Hk]]. apply in_map_iff in Hl. destruct Hl as [r [<- Hr]].
  rewrite Forall_forall in Hwf. destruct (Hwf r Hr) as [Hkeys _].
  rewrite Forall_forall in Hkeys. exact (Hkeys k Hk).
Qed.

(* ================================================================== *)
(** ** Properties of the normalization *)
(* ================================================================== *)

(** C1.  When the envelope holds a single mapping under the record key
    ([route] or [stop]) and no [error] key, the operation wraps the mapping:
    the table it returns is the table of the one-element sequence, with
    exactly one row. *)
Theorem single_mapping_is_wrapped (env : Env) (c : xml_call)
    (envelope r : record) :
  received env c = Some envelope ->
  has_key "error" envelope = false ->
  lookup (record_key c) envelope = Some (PyDict r) ->
  outcome (run_call c env) = inr (Frame (normalized_table [r])) /\
  length (pd.rows (normalized_table [r])) = 1%nat /\
  pd.rows (normalized_table [r]) = [pd.row_of (pd.fast_unique_multiple_list_gen [keys r]) r].
Proof.
  intros Hrecv Herr Hr.
  assert (Hrecs : records_in (record_key c) envelope = Some [r]).
  { unfold records_in. rewrite Hr. reflexivity. }
  rewrite (run_call_records env c Hrecv Herr Hrecs) by discriminate.
  repeat split.
Qed.

Lemma single_mapping_is_wrapped_witness :
  outcome (run_call (RoutesWithKey (PyStr "k"))
             (serving true (xml_body (PyDict [("route", PyDict sheridan)]))))
    = inr (Frame (normalized_table [sheridan])) /\
  length (pd.rows (normalized_table [sheridan])) = 1%nat /\
  pd.rows (normalized_table [sheridan])
    = [pd.row_of (pd.fast_unique_multiple_list_gen [keys sheridan]) sheridan].
Proof.
  apply (@single_mapping_is_wrapped
           (serving true (xml_body (PyDict [("route", PyDict sheridan)])))
           (RoutesWithKey (PyStr "k")) [("route", PyDict sheridan)] sheridan);
    reflexivity.
Defined.

(** C2, as stated, fails: on an error envelope the operation returns
    [None] whatever the message is, so no message can be read off the
    returned value. *)
Lemma error_result_carries_no_message :
  outcome (get_bus_routes_with_key (PyStr "k")
             (serving true (xml_body (error_envelope "No API key"))))
    = inr (Value PyNone) /\
  forall message_of : pyret -> string,
    ~ (forall msg r,
         outcome (get_bus_routes_with_key (PyStr "k")
                    (serving true (xml_body (error_envelope msg)))) = inr r ->
         message_of r = msg).
Proof.
  split; [reflexivity|].
  intros message_of H.
  pose proof (H "No API key" (Value PyNone) eq_refl) as H1.
  pose proof (H "Invalid API access key supplied" (Value PyNone) eq_refl) as H2.
  rewrite H1 in H2. discriminate H2.
Qed.

(** C2, amended.  When the envelope has an [error] key the operation
    returns [None], never a table, and no exception escapes; when the
    error is a mapping with a [msg] entry, the one line printed is
    [API Error: ] followed by that message. *)
Theorem error_envelope_returns_None (env : Env) (c : xml_call) (envelope : record) :
  received env c = Some envelope ->
  has_key "error" envelope = true ->
  outcome (run_call c env) = inr (Value PyNone) /\
  forall err msg,
    lookup "error" envelope = Some (PyDict err) ->
    lookup "msg" err = Some msg ->
    log (run_call c env) =
      [HttpGet (call_url c) (call_params c); Print "API Error: " (ArgVal msg)].
Proof.
  intros Hrecv Herr.
  destruct (run_call_error env c Hrecv Herr) as [line [-> Hline]].
  split; [reflexivity|].
  intros err msg He Hm. rewrite (Hline err msg He Hm). reflexivity.
Qed.

Lemma error_envelope_returns_None_witness :
  outcome (run_call (RoutesWithKey (PyStr "k"))
             (serving true (xml_body (error_envelope "No API key"))))
    = inr (Value PyNone) /\
  forall err msg,
    lookup "error" [("error", PyDict [("msg", PyStr "No API key")])] = Some (PyDict err) ->
    lookup "msg" err = Some msg ->
    log (run_call (RoutesWithKey (PyStr "k"))
           (serving true (xml_body (error_envelope "No API key")))) =
      [HttpGet getroutes_url [("key", PyStr "k")]; Print "API Error: " (ArgVal msg)].
Proof.
  apply (@error_envelope_returns_None
           (serving true (xml_body (error_envelope "No API key")))
           (RoutesWithKey (PyStr "k"))
           [("error", PyDict [("msg", PyStr "No API key")])]);
    reflexivity.
Defined.

(** C3.  For an envelope without [error] key whose records under the
    record key are well formed (trimmed names, string values): every table
    the operation returns has one row per record, the field names as its
    column labels, and in the row of each record, under the column of each
    field, the field's value unchanged; with at least one record the
    operation does return such a table.  With no record at all it does not
    under pandas 2.0 or later: there the call ends in [None] after the line
    [Error processing response: ...], where a table without rows was
    due. *)
Theorem row_count_equals_record_count (env : Env) (c : xml_call)
    (envelope : record) (recs : list record) :
  received env c = Some envelope ->
  has_key "error" envelope = false ->
  records_in (record_key c) envelope = Some recs ->
  Forall well_formed recs ->
  (recs <> [] -> exists df, outcome (run_call c env) = inr (Frame df)) /\
  (forall df,
     outcome (run_call c env) = inr (Frame df) ->
     length (pd.rows df) = length recs /\
     pd.columns df = pd.ObjectIndex (pd.fast_unique_multiple_list_gen (map keys recs)) /\
     forall i r k s,
       nth_error recs i = Some r ->
       lookup k r = Some (PyStr s) ->
       exists j,
         nth_error (labels df) j = Some k /\
         iat df i j = Some (pd.Val (PyStr s))) /\
  (recs = [] ->
   pandas_ge_2 env = true ->
   run_call c env =
     ([HttpGet (call_url c) (call_params c);
       Print "Error processing response: " (ArgExn AttributeError)],
      inr (Value PyNone))).
Proof.
  intros Hrecv Herr Hrecs Hwf. split; [|split].
  - intros Hne. rewrite (run_call_records env c Hrecv Herr Hrecs Hne).
    eexists. reflexivity.
  - intros df Hdf.
    destruct (run_call_frame_inv _ _ Hdf) as (envelope' & recs' & Hrecv' & _ & Hrecs' & ->).
    assert (envelope' = envelope) by congruence. subst envelope'.
    assert (recs' = recs) by congruence. subst recs'.
    split; [apply normalized_table_length|]. split.
    + change (pd.columns (normalized_table recs))
        with (pd.ObjectIndex (labels (normalized_table recs))).
      rewrite (well_formed_labels Hwf). reflexivity.
    + intros i r k s Hi Hk.
      destruct (normalized_table_cell recs i k Hi Hk) as (j & Hj & _ & Hcell).
      exists j. split; [|exact Hcell].
      rewrite (well_formed_labels Hwf). exact Hj.
  - intros -> Hp.
    rewrite (run_call_no_records env c Hrecv Herr Hrecs), Hp. reflexivity.
Qed.

Lemma sheridan_broadway_well_formed : Forall well_formed [sheridan; broadway].
Proof.
  repeat constructor; cbn; eauto.
Qed.

Lemma row_count_equals_record_count_witness :
  (exists df,
     outcome (run_call (RoutesWithKey (PyStr "k"))
                (serving true
                   (xml_body (PyDict [("route", PyList [PyDict sheridan; PyDict broadway])]))))
       = inr (Frame df) /\
     length (pd.rows df) = 2%nat /\
     iat df 1 1 = Some (pd.Val (PyStr "Broadway"))) /\
  run_call (StopsWithKey (PyStr "k") (PyStr "151") (PyStr "Northbound"))
    (serving true (xml_body (PyDict [("tm", PyStr "20250101 12:00")])))
  = ([HttpGet getstops_url
        [("key", PyStr "k"); ("rt", PyStr "151"); ("dir", PyStr "Northbound")];
      Print "Error processing response: " (ArgExn AttributeError)],
     inr (Value PyNone)).
Proof.
  split.
  - destruct (@row_count_equals_record_count
                (serving true
                   (xml_body (PyDict [("route", PyList [PyDict sheridan; PyDict broadway])])))
                (RoutesWithKey (PyStr "k"))
                [("route", PyList [PyDict sheridan; PyDict broadway])]
                [sheridan; broadway]
                eq_refl eq_refl eq_refl sheridan_broadway_well_formed)
      as (Hex & Hall & _).
    destruct (Hex ltac:(discriminate)) as [df Hdf].
    exists df. split; [exact Hdf|].
    destruct (Hall df Hdf) as (Hlen & _ & _). split; [exact Hlen|].
    cbv in Hdf. injection Hdf as <-. reflexivity.
  - destruct (@row_count_equals_record_count
                (serving true (xml_body (PyDict [("tm", PyStr "20250101 12:00")])))
                (StopsWithKey (PyStr "k") (PyStr "151") (PyStr "Northbound"))
                [("tm", PyStr "20250101 12:00")]
                []
                eq_refl eq_refl eq_refl (Forall_nil _))
      as (_ & _ & Hnone).
    exact (Hnone eq_refl eq_refl).
Defined.

(** C4.  In every table the operation returns, no column label has leading
    or trailing whitespace, and the labels are exactly the field names of
    the records in the envelope up to trimming: a string is a label when,
    and only when, it is what is left of some field name once the
    whitespace at its two ends is taken away.  No name is added, none is
    dropped, and nothing but surrounding whitespace is removed. *)
Theorem column_names_are_trimmed (env : Env) (c : xml_call) (df : pd.DataFrame) :
  outcome (run_call c env) = inr (Frame df) ->
  exists envelope recs,
    received env c = Some envelope /\
    records_in (record_key c) envelope = Some recs /\
    pd.columns df = pd.ObjectIndex (labels df) /\
    Forall trimmed (labels df) /\
    forall n,
      In n (labels df) <-> exists r k, In r recs /\ In k (keys r) /\ trims_to k n.
Proof.
  intros Hdf.
  destruct (run_call_frame_inv _ _ Hdf) as (envelope & recs & Hrecv & _ & Hrecs & ->).
  exists envelope, recs. repeat split; try assumption.
  - apply normalized_table_labels_trimmed.
  - intros Hn. apply normalized_table_label_set in Hn.
    destruct Hn as (r & k & Hr & Hk & ->). exists r, k.
    split; [exact Hr|]. split; [exact Hk | apply strip_trims_to].
  - intros (r & k & Hr & Hk & Hn). apply normalized_table_label_set.
    exists r, k. split; [exact Hr|]. split; [exact Hk | apply trims_to_strip, Hn].
Qed.

Lemma column_names_are_trimmed_witness :
  exists envelope recs,
    received (serving true (xml_body (PyDict [("stop", PyDict padded_stop)])))
      (StopsWithKey (PyStr "k") (PyStr "151") (PyStr "Northbound")) = Some envelope /\
    records_in "stop" envelope = Some recs /\
    pd.ObjectIndex ["stpid"; "stpnm"] = pd.ObjectIndex ["stpid"; "stpnm"] /\
    Forall trimmed ["stpid"; "stpnm"] /\
    forall n,
      In n ["stpid"; "stpnm"] <-> exists r k, In r recs /\ In k (keys r) /\ trims_to k n.
Proof.
  apply (@column_names_are_trimmed
           (serving true (xml_body (PyDict [("stop", PyDict padded_stop)])))
           (StopsWithKey (PyStr "k") (PyStr "151") (PyStr "Northbound"))
           {| pd.columns := pd.ObjectIndex ["stpid"; "stpnm"];
              pd.rows := [[pd.Val (PyStr "1106"); pd.Val (PyStr "Sheridan & Foster")]] |}).
  reflexivity.
Defined.

(** C5.  When the envelope has neither an [error] key nor the record key,
    the records default to the empty list.  What follows depends on pandas:
    before 2.0 the empty frame has string-typed (empty) columns and the
    operation returns the empty table; since 2.0 its columns are
    [RangeIndex(0)], [.str] raises [AttributeError], and the operation
    prints [Error processing response: ...] and returns [None]. *)
Theorem absent_record_key (env : Env) (c : xml_call) (envelope : record) :
  received env c = Some envelope ->
  has_key "error" envelope = false ->
  lookup (record_key c) envelope = None ->
  run_call c env =
    if pandas_ge_2 env
    then ([HttpGet (call_url c) (call_params c);
           Print "Error processing response: " (ArgExn AttributeError)],
          inr (Value PyNone))
    else ([HttpGet (call_url c) (call_params c)],
          inr (Frame {| pd.columns := pd.ObjectIndex []; pd.rows := [] |})).
Proof.
  intros Hrecv Herr Hk.
  apply (run_call_no_records env c Hrecv Herr).
  unfold records_in. rewrite Hk. reflexivity.
Qed.

Lemma absent_record_key_witness :
  run_call (StopsWithKey (PyStr "k") (PyStr "151") (PyStr "Northbound"))
    (serving true (xml_body (PyDict [("tm", PyStr "20250101 12:00")])))
  = ([HttpGet getstops_url
        [("key", PyStr "k"); ("rt", PyStr "151"); ("dir", PyStr "Northbound")];
      Print "Error processing response: " (ArgExn AttributeError)],
     inr (Value PyNone)).
Proof.
  apply (@absent_record_key
           (serving true (xml_body (PyDict [("tm", PyStr "20250101 12:00")])))
           (StopsWithKey (PyStr "k") (PyStr "151") (PyStr "Northbound"))
           [("tm", PyStr "20250101 12:00")]);
    reflexivity.
Defined.

(** C8.  No coercion and no type inference: in every table the operation
    returns, each string value of each record of the envelope is the
    content of the cell in the row of its record, in a column labelled with
    its (stripped) field name; the cell holds the same string. *)
Theorem values_pass_through (env : Env) (c : xml_call) (df : pd.DataFrame) :
  outcome (run_call c env) = inr (Frame df) ->
  exists envelope recs,
    received env c = Some envelope /\
    records_in (record_key c) envelope = Some recs /\
    length (pd.rows df) = length recs /\
    forall i r k s,
      nth_error recs i = Some r ->
      lookup k r = Some (PyStr s) ->
      exists j,
        nth_error (labels df) j = Some (strip k) /\
        iat df i j = Some (pd.Val (PyStr s)).
Proof.
  intros Hdf.
  destruct (run_call_frame_inv _ _ Hdf) as (envelope & recs & Hrecv & _ & Hrecs & ->).
  exists envelope, recs. repeat split; try assumption.
  - apply normalized_table_length.
  - intros i r k s Hi Hk.
    destruct (normalized_table_cell recs i k Hi Hk) as (j & _ & Hj & Hcell).
    exists j. split; assumption.
Qed.

Lemma values_pass_through_witness :
  exists envelope recs,
    received (serving true (xml_body (PyDict [("route", PyDict sheridan)])))
      (RoutesWithKey (PyStr "k")) = Some envelope /\
    records_in "route" envelope = Some recs /\
    length (pd.rows (normalized_table [sheridan])) = length recs /\
    forall i r k s,
      nth_error recs i = Some r ->
      lookup k r = Some (PyStr s) ->
      exists j,
        nth_error (labels (normalized_table [sheridan])) j = Some (strip k) /\
        iat (normalized_table [sheridan]) i j = Some (pd.Val (PyStr s)).
Proof.
  apply (@values_pass_through
           (serving true (xml_body (PyDict [("route", PyDict sheridan)])))
           (RoutesWithKey (PyStr "k"))
           (normalized_table [sheridan])).
  reflexivity.
Defined.

(** C9.  The two XML operations are total: in every environment, whatever
    the transport does and whatever the body parses to, the call returns a
    table or [None]; no exception escapes. *)
Theorem xml_operations_are_total (env : Env) (c : xml_call) :
  exists r, outcome (run_call c env) = inr r /\ table_or_None r.
Proof.
  rewrite run_call_fetch_records. apply fetch_records_total.
Qed.

(* ================================================================== *)
(** ** The JSON operations *)
(* ================================================================== *)

Lemma ensures_raise {A} (e : exn) (P : A -> Prop) : ensures (raise e) P.
Proof. intros env a. discriminate. Qed.

Lemma ensures_handle {A} (clauses : list ((exn -> bool) * (exn -> M A)))
    (e : exn) (P : A -> Prop) :
  Forall (fun clause => forall e', ensures (snd clause e') P) clauses ->
  ensures (handle clauses e) P.
Proof.
  induction 1 as [|[matches handler] clauses Hc _ IH]; cbn [handle].
  - apply ensures_raise.
  - destruct (matches e); [apply Hc | exact IH].
Qed.

Lemma get_bus_routes_returns (env : Env) (r : pyret) :
  outcome (get_bus_routes env) = inr r -> table_or_None r.
Proof.
  revert env r. change (ensures get_bus_routes table_or_None).
  unfold get_bus_routes. apply ensures_bind. intros key.
  apply ensures_try_except.
  - repeat (apply ensures_bind; intros). apply ensures_ret. right. eauto.
  - intros e. apply ensures_handle.
    apply Forall_cons; [|apply Forall_nil]. intros e0.
    unfold except_RequestException. cbn [snd].
    apply ensures_bind. intros _. apply ensures_ret. left. reflexivity.
Qed.

Lemma get_bus_vehicles_returns (env : Env) (ids : vehicle_ids_arg) (r : pyret) :
  outcome (get_bus_vehicles ids env) = inr r ->
  r = Value PyNone \/
  exists params resp body,
    requests_get env getvehicles_url params = inr resp /\
    json resp = inr body /\
    r = Value body.
Proof.
  unfold get_bus_vehicles, getenv_API_KEY. intros H.
  crunch H; injection H as <-; eauto 8.
Qed.


Lemma bind_getenv {A} (f : pyval -> M A) (env : Env) :
  bind getenv_API_KEY f env = f (API_KEY env) env.
Proof.
  unfold bind, getenv_API_KEY. destruct (f (API_KEY env) env) as [l r]. reflexivity.
Qed.

(** C6.  [get_bus_routes] does not turn an upstream error envelope into
    [None]: the JSON error body has no [routes] entry, the subscript
    raises [KeyError], and the only handler is for [RequestException]. *)
Theorem get_bus_routes_error_envelope_raises (env : Env) (resp : Response)
    (root envelope : record) :
  requests_get env getroutes_url [("key", API_KEY env); ("format", PyStr "json")] = inr resp ->
  ((400 <=? status_code resp) && (status_code resp <? 600))%Z = false ->
  json resp = inr (PyDict root) ->
  lookup "bustime-response" root = Some (PyDict envelope) ->
  lookup "routes" envelope = None ->
  outcome (get_bus_routes env) = inl KeyError.
Proof.
  intros Hget Hstatus Hjson Hroot Hroutes.
  unfold get_bus_routes, getenv_API_KEY. run_steps.
  rewrite Hget, Hstatus. run_steps. rewrite Hjson. run_steps.
  cbv beta iota delta [getitem]. rewrite Hroot. run_steps.
  cbv beta iota delta [getitem]. rewrite Hroutes. reflexivity.
Qed.

Lemma get_bus_routes_error_envelope_raises_witness :
  outcome (get_bus_routes
             (serving true (json_body (error_json "Invalid API access key supplied"))))
    = inl KeyError.
Proof.
  apply (@get_bus_routes_error_envelope_raises
           (serving true (json_body (error_json "Invalid API access key supplied")))
           (json_body (error_json "Invalid API access key supplied"))
           [("bustime-response",
             PyDict [("error", PyList [PyDict [("msg", PyStr "Invalid API access key supplied")]])])]
           [("error", PyList [PyDict [("msg", PyStr "Invalid API access key supplied")]])]);
    reflexivity.
Defined.

(** C7, as stated, fails: [get_bus_vehicles] returns the decoded response
    body as it is, which is neither a table nor [None]. *)
Lemma get_bus_vehicles_returns_raw_body :
  outcome (get_bus_vehicles (IdString "1234") (serving true (json_body vehicles_json)))
    = inr (Value vehicles_json) /\
  ~ table_or_None (Value vehicles_json).
Proof.
  split; [reflexivity|].
  intros [H|[df H]]; discriminate H.
Qed.

(** C7, amended.  The two XML operations return a table or [None];
    [get_bus_routes], when it returns, returns a table or [None];
    [get_bus_vehicles], when it returns, returns [None] or the decoded
    JSON body of the response, unchanged and never as a table. *)
Theorem operations_return (env : Env) :
  (forall c, exists r, outcome (run_call c env) = inr r /\ table_or_None r) /\
  (forall r, outcome (get_bus_routes env) = inr r -> table_or_None r) /\
  (forall ids r,
     outcome (get_bus_vehicles ids env) = inr r ->
     r = Value PyNone \/
     exists params resp body,
       requests_get env getvehicles_url params = inr resp /\
       json resp = inr body /\
       r = Value body).
Proof.
  split; [|split].
  - intros c. rewrite run_call_fetch_records. apply fetch_records_total.
  - apply get_bus_routes_returns.
  - apply get_bus_vehicles_returns.
Qed.









Example vehicle_ids_joined :
  join "," (map str [VInt 1234; VStr "5678"; VInt 8020]) = "1234,5678,8020".
Proof. reflexivity. Qed.

(* ================================================================== *)
(** ** Transport failures, and the scenarios of the specification *)
(* ================================================================== *)

(** X3.  A 4xx or 5xx answer makes [raise_for_status] raise [HTTPError],
    a [RequestException]: an XML operation then prints its fetch message
    with that error and returns [None], without looking at the body. *)
Lemma xml_http_error_returns_None (env : Env) (c : xml_call) (resp : Response) :
  requests_get env (call_url c) (call_params c) = inr resp ->
  ((400 <=? status_code resp) && (status_code resp <? 600))%Z = true ->
  run_call c env =
    ([HttpGet (call_url c) (call_params c); Print (fetch_error_prefix c) (ArgExn HTTPError)],
     inr (Value PyNone)).
Proof.
  intros Hget Hstatus. rewrite run_call_fetch_records. run_steps.
  rewrite Hget, Hstatus. reflexivity.
Qed.

(** X19.  On a 4xx or 5xx answer [get_bus_routes] returns [None]: the
    [HTTPError] of [raise_for_status] is a [RequestException], which its
    handler catches. *)
Lemma get_bus_routes_http_error_returns_None (env : Env) (resp : Response) :
  requests_get env getroutes_url [("key", API_KEY env); ("format", PyStr "json")] = inr resp ->
  ((400 <=? status_code resp) && (status_code resp <? 600))%Z = true ->
  outcome (get_bus_routes env) = inr (Value PyNone).
Proof.
  intros Hget Hstatus. unfold get_bus_routes. rewrite bind_getenv. run_steps.
  rewrite Hget, Hstatus. reflexivity.
Qed.

Lemma get_bus_vehicles_http_error_returns_None (env : Env) (ids : vehicle_ids_arg) :
  (forall params, exists resp,
     requests_get env getvehicles_url params = inr resp /\
     ((400 <=? status_code resp) && (status_code resp <? 600))%Z = true) ->
  outcome (get_bus_vehicles ids env) = inr (Value PyNone).
Proof.
  intros Hget. unfold get_bus_vehicles. rewrite bind_getenv. run_steps.
  match goal with
  | |- context [requests_get env getvehicles_url ?params] =>
      destruct (Hget params) as [resp [-> Hstatus]]
  end.
  rewrite Hstatus. reflexivity.
Qed.

(** X2.  When [requests.get] itself raises a [RequestException]
    (connection error, timeout), an XML operation prints its fetch message
    with that exception and returns [None]. *)
Lemma xml_transport_failure_returns_None (env : Env) (c : xml_call) (e : exn) :
  requests_get env (call_url c) (call_params c) = inl e ->
  isinstance_RequestException e = true ->
  run_call c env =
    ([HttpGet (call_url c) (call_params c); Print (fetch_error_prefix c) (ArgExn e)],
     inr (Value PyNone)).
Proof.
  intros Hget He. rewrite run_call_fetch_records. run_steps.
  rewrite Hget. run_steps. rewrite He. reflexivity.
Qed.

(** Envelope [{"route": {"rt": "151", "rtnm": "Sheridan"}}] gives the
    one-row table [[{"rt": "151", "rtnm": "Sheridan"}]]. *)
Example scenario_single_route :
  get_bus_routes_with_key (PyStr "k")
    (serving true (xml_body (PyDict [("route", PyDict sheridan)])))
  = ([HttpGet getroutes_url [("key", PyStr "k")]],
     inr (Frame {| pd.columns := pd.ObjectIndex ["rt"; "rtnm"];
                   pd.rows := [[pd.Val (PyStr "151"); pd.Val (PyStr "Sheridan")]] |})).
Proof. reflexivity. Qed.

(** Envelope [{"error": {"msg": "No API key"}}] gives [None]; the message
    goes to standard output. *)
Example scenario_error_envelope :
  get_bus_routes_with_key (PyStr "k")
    (serving true (xml_body (error_envelope "No API key")))
  = ([HttpGet getroutes_url [("key", PyStr "k")];
      Print "API Error: " (ArgVal (PyStr "No API key"))],
     inr (Value PyNone)).
Proof. reflexivity. Qed.

(** HTTP 500 gives [None] in each of the four operations. *)
Example scenario_http_500 :
  let env := serving true server_error in
  outcome (get_bus_routes env) = inr (Value PyNone) /\
  outcome (get_bus_vehicles (IdList [VInt 1234]) env) = inr (Value PyNone) /\
  outcome (get_bus_routes_with_key (PyStr "k") env) = inr (Value PyNone) /\
  outcome (get_bus_stops_with_key (PyStr "k") (PyStr "151") (PyStr "Northbound") env)
    = inr (Value PyNone).
Proof. repeat split. Qed.

(** Column names that carry whitespace are stripped; the cells stay. *)
Example scenario_padded_names :
  outcome (get_bus_stops_with_key (PyStr "k") (PyStr "151") (PyStr "Northbound")
             (serving true (xml_body (PyDict [("stop", PyDict padded_stop)]))))
  = inr (Frame {| pd.columns := pd.ObjectIndex ["stpid"; "stpnm"];
                  pd.rows := [[pd.Val (PyStr "1106"); pd.Val (PyStr "Sheridan & Foster")]] |}).
Proof. reflexivity. Qed.

(** A lone empty element [<route/>] parses to [None] under the record key;
    wrapped into [[None]] it makes a positional frame, whose integer
    columns have no [.str]: the call returns [None]. *)
Example scenario_empty_element :
  get_bus_routes_with_key (PyStr "k")
    (serving true (xml_body (PyDict [("route", PyNone)])))
  = ([HttpGet getroutes_url [("key", PyStr "k")];
      Print "Error processing response: " (ArgExn AttributeError)],
     inr (Value PyNone)).
Proof. reflexivity. Qed.

(* ================================================================== *)
(** ** One request, at most one line *)
(* ================================================================== *)

(** Every run of an XML operation is a single request followed either by
    a silent success or by one printed line and [None]. *)
Lemma run_call_cases (env : Env) (c : xml_call) :
  (exists df,
     run_call c env = ([HttpGet (call_url c) (call_params c)], inr (Frame df))) \/
  (exists prefix arg,
     run_call c env =
       ([HttpGet (call_url c) (call_params c); Print prefix arg], inr (Value PyNone)) /\
     In prefix ["API Error: "; fetch_error_prefix c; "Error processing response: "]).
Proof.
  rewrite run_call_fetch_records.
  remember (fetch_records (call_url c) (call_params c) (record_key c)
              (fetch_error_prefix c) env) as res eqn:H.
  symmetry in H. crunch H.
  all: subst res; first
    [ left; eexists; reflexivity
    | right; eexists _, _; split; [reflexivity | cbn; tauto] ].
Qed.

(** X1.  An XML operation sends exactly one request, with the URL and the
    parameters of the call.  When it returns a table it has printed
    nothing; when it returns [None] it has printed exactly one line, which
    starts with [API Error: ], with the operation's own fetch message, or
    with [Error processing response: ]. *)
Theorem one_request_one_line (env : Env) (c : xml_call) :
  exists rest,
    log (run_call c env) = HttpGet (call_url c) (call_params c) :: rest /\
    (forall df, outcome (run_call c env) = inr (Frame df) -> rest = []) /\
    (outcome (run_call c env) = inr (Value PyNone) ->
     exists prefix arg,
       rest = [Print prefix arg] /\
       In prefix ["API Error: "; fetch_error_prefix c; "Error processing response: "]).
Proof.
  destruct (run_call_cases env c) as [[df ->] | (prefix & arg & -> & Hin)].
  - exists []. split; [reflexivity|]. split; [reflexivity|]. discriminate.
  - exists [Print prefix arg]. split; [reflexivity|]. split; [discriminate|].
    intros _. exists prefix, arg. split; [reflexivity | exact Hin].
Qed.

(* ================================================================== *)
(** ** Bodies the XML operations reject *)
(* ================================================================== *)

(** X4.  When [xmltodict.parse] raises (malformed XML), the XML operation
    prints one line and returns [None]; the line is the processing message
    unless the exception is a [RequestException]. *)
Theorem malformed_xml_returns_None (env : Env) (c : xml_call) (resp : Response) (e : exn) :
  requests_get env (call_url c) (call_params c) = inr resp ->
  ((400 <=? status_code resp) && (status_code resp <? 600))%Z = false ->
  xmltodict_parse resp = inl e ->
  run_call c env =
    ([HttpGet (call_url c) (call_params c);
      Print (if isinstance_RequestException e then fetch_error_prefix c
             else "Error processing response: ") (ArgExn e)],
     inr (Value PyNone)).
Proof.
  intros Hget Hstatus Hparse. rewrite run_call_fetch_records. run_steps.
  rewrite Hget, Hstatus. run_steps. rewrite Hparse. run_steps.
  destruct (isinstance_RequestException e); reflexivity.
Qed.

Lemma malformed_xml_returns_None_witness :
  run_call (RoutesWithKey (PyStr "k")) (serving true (json_body PyNone)) =
    ([HttpGet getroutes_url [("key", PyStr "k")];
      Print "Error processing response: " (ArgExn ExpatError)],
     inr (Value PyNone)).
Proof.
  apply (@malformed_xml_returns_None (serving true (json_body PyNone))
           (RoutesWithKey (PyStr "k")) (json_body PyNone) ExpatError);
    reflexivity.
Defined.

(** X5.  When the [bustime-response] element holds no mapping (an empty
    element, text only, or a list), the XML operation returns [None] after
    the line [Error processing response: ...], the exception being a
    [TypeError] or an [AttributeError]. *)
Theorem non_mapping_response_returns_None (env : Env) (c : xml_call)
    (resp : Response) (root : record) (v : pyval) :
  requests_get env (call_url c) (call_params c) = inr resp ->
  ((400 <=? status_code resp) && (status_code resp <? 600))%Z = false ->
  xmltodict_parse resp = inr (PyDict root) ->
  lookup "bustime-response" root = Some v ->
  (forall d, v <> PyDict d) ->
  exists e,
    (e = TypeError \/ e = AttributeError) /\
    run_call c env =
      ([HttpGet (call_url c) (call_params c);
        Print "Error processing response: " (ArgExn e)],
       inr (Value PyNone)).
Proof.
  intros Hget Hstatus Hparse Hroot Hv. rewrite run_call_fetch_records. run_steps.
  rewrite Hget, Hstatus. run_steps. rewrite Hparse. run_steps.
  cbv beta iota delta [dict_get getitem]. rewrite Hroot.
  destruct v as [|b|z|bits|s|items|d]; run_steps;
    try (exists TypeError; split; [tauto | reflexivity]).
  - destruct (is_substring "error" s); run_steps.
    + exists TypeError. split; [tauto | reflexivity].
    + exists AttributeError. split; [tauto | reflexivity].
  - destruct (existsb (is_str "error") items); run_steps.
    + exists TypeError. split; [tauto | reflexivity].
    + exists AttributeError. split; [tauto | reflexivity].
  - exfalso. exact (Hv d eq_refl).
Qed.

Lemma non_mapping_response_returns_None_witness :
  exists e,
    (e = TypeError \/ e = AttributeError) /\
    run_call (RoutesWithKey (PyStr "k")) (serving true (xml_body PyNone)) =
      ([HttpGet getroutes_url [("key", PyStr "k")];
        Print "Error processing response: " (ArgExn e)],
       inr (Value PyNone)).
Proof.
  apply (@non_mapping_response_returns_None (serving true (xml_body PyNone))
           (RoutesWithKey (PyStr "k")) (xml_body PyNone)
           [("bustime-response", PyNone)] PyNone);
    try reflexivity.
  intros d H. discriminate H.
Defined.

(** X6.  When the envelope has an [error] entry without a readable
    message (the entry is not a mapping, as with several [error] elements,
    or is a mapping without [msg]), the XML operation still returns
    [None], but the line it prints is [Error processing response: ...]
    with a [TypeError] or a [KeyError], not the upstream message. *)
Theorem error_without_message (env : Env) (c : xml_call) (envelope : record) (v : pyval) :
  received env c = Some envelope ->
  lookup "error" envelope = Some v ->
  (forall err, v = PyDict err -> lookup "msg" err = None) ->
  exists e,
    (e = TypeError \/ e = KeyError) /\
    run_call c env =
      ([HttpGet (call_url c) (call_params c);
        Print "Error processing response: " (ArgExn e)],
       inr (Value PyNone)).
Proof.
  intros Hrecv Hv Hmsg.
  assert (Herr : has_key "error" envelope = true).
  { destruct (has_key "error" envelope) eqn:Hk; [reflexivity|].
    apply lookup_None_has_key in Hk. congruence. }
  destruct (received_inv _ _ Hrecv) as (r & x & Hget & Hstatus & Hparse & Henv).
  pose proof (envelope_of_getitem _ Henv Herr) as Hitem.
  apply envelope_of_get in Henv.
  rewrite run_call_fetch_records. run_steps.
  rewrite Hget, Hstatus. run_steps. rewrite Hparse. run_steps. rewrite Henv. run_steps.
  unfold has_key in Herr. rewrite Herr. run_steps. rewrite Hitem. run_steps.
  cbv beta iota delta [getitem]. rewrite Hv.
  destruct v as [|b|z|bits|s|items|err]; run_steps;
    try (exists TypeError; split; [tauto | reflexivity]).
  rewrite (Hmsg err eq_refl). exists KeyError. split; [tauto | reflexivity].
Qed.

Lemma error_without_message_witness :
  exists e,
    (e = TypeError \/ e = KeyError) /\
    run_call (StopsWithKey (PyStr "k") (PyStr "999") (PyStr "Up"))
      (serving true (xml_body (PyDict [("error", two_errors)]))) =
      ([HttpGet getstops_url [("key", PyStr "k"); ("rt", PyStr "999"); ("dir", PyStr "Up")];
        Print "Error processing response: " (ArgExn e)],
       inr (Value PyNone)).
Proof.
  apply (@error_without_message
           (serving true (xml_body (PyDict [("error", two_errors)])))
           (StopsWithKey (PyStr "k") (PyStr "999") (PyStr "Up"))
           [("error", two_errors)] two_errors);
    try reflexivity.
  intros err H. discriminate H.
Defined.

(** X7.  When the envelope has no [error] key and the value under the
    record key is neither a mapping nor a sequence of mappings (text
    elements, an empty element, a mixed sequence), the XML operation
    returns [None] after one line that reports the exception pandas raised
    (the processing message, unless that exception is a
    [RequestException]). *)
Theorem non_mapping_records_return_None (env : Env) (c : xml_call) (envelope : record) :
  received env c = Some envelope ->
  has_key "error" envelope = false ->
  records_in (record_key c) envelope = None ->
  exists e,
    run_call c env =
      ([HttpGet (call_url c) (call_params c);
        Print (if isinstance_RequestException e then fetch_error_prefix c
               else "Error processing response: ") (ArgExn e)],
       inr (Value PyNone)).
Proof.
  intros Hrecv Herr Hrecs.
  destruct (received_inv _ _ Hrecv) as (r & x & Hget & Hstatus & Hparse & Henv).
  apply envelope_of_get in Henv.
  rewrite run_call_fetch_records.
  remember (fetch_records (call_url c) (call_params c) (record_key c)
              (fetch_error_prefix c) env) as res eqn:H.
  symmetry in H. revert H. run_steps.
  rewrite Hget, Hstatus. run_steps. rewrite Hparse. run_steps. rewrite Henv. run_steps.
  unfold has_key in Herr. rewrite Herr. run_steps.
  unfold records_in in Hrecs. cbv beta iota delta [dict_get].
  intros H. crunch H; subst res; try discriminate Hrecs.
  all: try (cbn [pd.all_mappings] in *; congruence).
  all: match goal with
       | Hb : isinstance_RequestException ?e = ?b |- _ =>
           exists e; rewrite Hb; reflexivity
       end.
Qed.

Lemma non_mapping_records_return_None_witness :
  exists e,
    run_call (RoutesWithKey (PyStr "k"))
      (serving true (xml_body (PyDict [("route", PyList [PyStr "a"; PyStr "b"])]))) =
      ([HttpGet getroutes_url [("key", PyStr "k")];
        Print (if isinstance_RequestException e then "Error fetching routes: "
               else "Error processing response: ") (ArgExn e)],
       inr (Value PyNone)).
Proof.
  apply (@non_mapping_records_return_None
           (serving true (xml_body (PyDict [("route", PyList [PyStr "a"; PyStr "b"])])))
           (RoutesWithKey (PyStr "k"))
           [("route", PyList [PyStr "a"; PyStr "b"])]);
    reflexivity.
Defined.

(* ================================================================== *)
(** ** The JSON operations, case by case *)
(* ================================================================== *)

Lemma get_bus_routes_unfold (env : Env) :
  get_bus_routes env =
    try_except
      (response <- get getroutes_url (routes_params env) ;;
       raise_for_status response ;;
       response <- lift (json response) ;;
       bustime <- lift (getitem response "bustime-response") ;;
       routes <- lift (getitem bustime "routes") ;;
       df <- DataFrame routes ;;
       ret (Frame df))
      [except_RequestException (fun e =>
         print "Error fetching routes: " (ArgExn e) ;;
         ret (Value PyNone))] env.
Proof. unfold get_bus_routes. rewrite bind_getenv. reflexivity. Qed.

Lemma get_bus_vehicles_unfold (env : Env) (ids : vehicle_ids_arg) :
  get_bus_vehicles ids env =
    try_except
      (response <- get getvehicles_url (vehicles_params env ids) ;;
       raise_for_status response ;;
       body <- lift (json response) ;;
       ret (Value body))
      [except_RequestException (fun e =>
         print "Error fetching vehicle data: " (ArgExn e) ;;
         ret (Value PyNone))] env.
Proof. unfold get_bus_vehicles. rewrite bind_getenv. reflexivity. Qed.




(** X9.  On an empty [routes] list [get_bus_routes] returns a table
    without rows and prints nothing, whatever the pandas version: it does
    not touch the column labels, so the failure of the XML operations on an
    empty record list does not occur here. *)
Theorem get_bus_routes_empty_list (env : Env) (resp : Response) (root envelope : record) :
  requests_get env getroutes_url (routes_params env) = inr resp ->
  ((400 <=? status_code resp) && (status_code resp <? 600))%Z = false ->
  json resp = inr (PyDict root) ->
  lookup "bustime-response" root = Some (PyDict envelope) ->
  lookup "routes" envelope = Some (PyList []) ->
  exists df,
    get_bus_routes env = ([HttpGet getroutes_url (routes_params env)], inr (Frame df)) /\
    pd.rows df = [].
Proof.
  intros Hget Hstatus Hjson Hroot Hroutes.
  rewrite get_bus_routes_unfold. run_steps.
  rewrite Hget, Hstatus. run_steps. rewrite Hjson. run_steps.
  cbv beta iota delta [getitem]. rewrite Hroot. run_steps.
  cbv beta iota delta [getitem]. rewrite Hroutes. run_steps.
  unfold DataFrame. eexists. split; reflexivity.
Qed.

Lemma get_bus_routes_empty_list_witness :
  exists df,
    get_bus_routes
      (serving true
         (json_body (PyDict [("bustime-response", PyDict [("routes", PyList [])])]))) =
      ([HttpGet getroutes_url [("key", PyStr "k"); ("format", PyStr "json")]],
       inr (Frame df)) /\
    pd.rows df = [].
Proof.
  apply (@get_bus_routes_empty_list
           (serving true
              (json_body (PyDict [("bustime-response", PyDict [("routes", PyList [])])])))
           (json_body (PyDict [("bustime-response", PyDict [("routes", PyList [])])]))
           [("bustime-response", PyDict [("routes", PyList [])])]
           [("routes", PyList [])]);
    reflexivity.
Defined.

(** X10.  Every run of [get_bus_routes] is one request followed by one of
    three endings: a table and nothing printed; [None] after the line
    [Error fetching routes: ...] for a [RequestException]; or an escaping
    exception that is not a [RequestException], with nothing printed. *)
Theorem get_bus_routes_cases (env : Env) :
  (exists df,
     get_bus_routes env = ([HttpGet getroutes_url (routes_params env)], inr (Frame df))) \/
  (exists e,
     isinstance_RequestException e = true /\
     get_bus_routes env =
       ([HttpGet getroutes_url (routes_params env);
         Print "Error fetching routes: " (ArgExn e)],
        inr (Value PyNone))) \/
  (exists e,
     isinstance_RequestException e = false /\
     get_bus_routes env = ([HttpGet getroutes_url (routes_params env)], inl e)).
Proof.
  rewrite get_bus_routes_unfold.
  match goal with
  | |- context [try_except ?b ?h env] => remember (try_except b h env) as res eqn:H
  end.
  symmetry in H. crunch H; subst res.
  all: match goal with
       | Hb : isinstance_RequestException ?e = true |- _ =>
           right; left; exists e; split; [exact Hb | reflexivity]
       | Hb : isinstance_RequestException ?e = false |- _ =>
           right; right; exists e; split; [exact Hb | reflexivity]
       | |- _ => left; eexists; reflexivity
       end.
Qed.

(** X11.  Every run of [get_bus_vehicles] is one request followed by one
    of three endings: the decoded body of a response returned as it is,
    nothing printed; [None] after the line [Error fetching vehicle data: ...]
    for a [RequestException]; or an escaping exception that is not a
    [RequestException], with nothing printed. *)
Theorem get_bus_vehicles_cases (env : Env) (ids : vehicle_ids_arg) :
  (exists resp body,
     requests_get env getvehicles_url (vehicles_params env ids) = inr resp /\
     json resp = inr body /\
     get_bus_vehicles ids env =
       ([HttpGet getvehicles_url (vehicles_params env ids)], inr (Value body))) \/
  (exists e,
     isinstance_RequestException e = true /\
     get_bus_vehicles ids env =
       ([HttpGet getvehicles_url (vehicles_params env ids);
         Print "Error fetching vehicle data: " (ArgExn e)],
        inr (Value PyNone))) \/
  (exists e,
     isinstance_RequestException e = false /\
     get_bus_vehicles ids env = ([HttpGet getvehicles_url (vehicles_params env ids)], inl e)).
Proof.
  rewrite get_bus_vehicles_unfold.
  match goal with
  | |- context [try_except ?b ?h env] => remember (try_except b h env) as res eqn:H
  end.
  symmetry in H. crunch H; subst res.
  all: match goal with
       | Hb : isinstance_RequestException ?e = true |- _ =>
           right; left; exists e; split; [exact Hb | reflexivity]
       | Hb : isinstance_RequestException ?e = false |- _ =>
           right; right; exists e; split; [exact Hb | reflexivity]
       | |- _ => left; eexists _, _; repeat split; eassumption
       end.
Qed.

(** X12.  When the response has a status outside 4xx/5xx and its body
    decodes, [get_bus_vehicles] returns the decoded body unchanged and
    prints nothing; it does not look for an [error] entry, so an upstream
    error envelope is returned like any other body. *)
Theorem get_bus_vehicles_returns_body (env : Env) (ids : vehicle_ids_arg)
    (resp : Response) (body : pyval) :
  requests_get env getvehicles_url (vehicles_params env ids) = inr resp ->
  ((400 <=? status_code resp) && (status_code resp <? 600))%Z = false ->
  json resp = inr body ->
  get_bus_vehicles ids env =
    ([HttpGet getvehicles_url (vehicles_params env ids)], inr (Value body)).
Proof.
  intros Hget Hstatus Hjson. rewrite get_bus_vehicles_unfold. run_steps.
  rewrite Hget, Hstatus. run_steps. rewrite Hjson. reflexivity.
Qed.

Lemma get_bus_vehicles_returns_body_witness :
  get_bus_vehicles (IdList [VInt 1234; VInt 8020])
    (serving true (json_body (error_json "No data found for parameter"))) =
    ([HttpGet getvehicles_url
        [("key", PyStr "k"); ("vid", PyStr "1234,8020");
         ("tmres", PyStr "s"); ("format", PyStr "json")]],
     inr (Value (error_json "No data found for parameter"))).
Proof.
  apply (@get_bus_vehicles_returns_body
           (serving true (json_body (error_json "No data found for parameter")))
           (IdList [VInt 1234; VInt 8020])
           (json_body (error_json "No data found for parameter"))
           (error_json "No data found for parameter"));
    reflexivity.
Defined.

(** X13.  When [response.json()] raises in [get_bus_routes], what happens
    depends on the class of the exception alone: a [RequestException] (the
    decoding error of current [requests]) gives [None] after the line
    [Error fetching routes: ...]; any other exception escapes, with nothing
    printed. *)
Theorem get_bus_routes_json_failure (env : Env) (resp : Response) (e : exn) :
  requests_get env getroutes_url (routes_params env) = inr resp ->
  ((400 <=? status_code resp) && (status_code resp <? 600))%Z = false ->
  json resp = inl e ->
  get_bus_routes env =
    if isinstance_RequestException e
    then ([HttpGet getroutes_url (routes_params env);
           Print "Error fetching routes: " (ArgExn e)],
          inr (Value PyNone))
    else ([HttpGet getroutes_url (routes_params env)], inl e).
Proof.
  intros Hget Hstatus Hjson. rewrite get_bus_routes_unfold. run_steps.
  rewrite Hget, Hstatus. run_steps. rewrite Hjson. run_steps.
  destruct (isinstance_RequestException e); reflexivity.
Qed.

Lemma get_bus_routes_json_failure_witness :
  get_bus_routes (serving true (xml_body PyNone)) =
    ([HttpGet getroutes_url [("key", PyStr "k"); ("format", PyStr "json")];
      Print "Error fetching routes: " (ArgExn RequestsJSONDecodeError)],
     inr (Value PyNone)).
Proof.
  apply (@get_bus_routes_json_failure (serving true (xml_body PyNone))
           (xml_body PyNone) RequestsJSONDecodeError);
    reflexivity.
Defined.

(** X18.  When the transport of [get_bus_vehicles] fails, by a
    [RequestException] out of [requests.get] or by a 4xx/5xx status (then
    an [HTTPError]), the operation prints [Error fetching vehicle data: ...]
    and returns [None]. *)
Theorem get_bus_vehicles_transport_failure (env : Env) (ids : vehicle_ids_arg) (e : exn) :
  (requests_get env getvehicles_url (vehicles_params env ids) = inl e /\
   isinstance_RequestException e = true) \/
  (exists resp,
     requests_get env getvehicles_url (vehicles_params env ids) = inr resp /\
     ((400 <=? status_code resp) && (status_code resp <? 600))%Z = true /\
     e = HTTPError) ->
  get_bus_vehicles ids env =
    ([HttpGet getvehicles_url (vehicles_params env ids);
      Print "Error fetching vehicle data: " (ArgExn e)],
     inr (Value PyNone)).
Proof.
  intros [[Hget He] | (resp & Hget & Hstatus & ->)];
    rewrite get_bus_vehicles_unfold; run_steps; rewrite Hget; run_steps.
  - rewrite He. reflexivity.
  - rewrite Hstatus. reflexivity.
Qed.

Lemma get_bus_vehicles_transport_failure_witness :
  get_bus_vehicles (IdString "1234") (failing_with Timeout) =
    ([HttpGet getvehicles_url
        [("key", PyStr "k"); ("vid", PyStr "1234");
         ("tmres", PyStr "s"); ("format", PyStr "json")];
      Print "Error fetching vehicle data: " (ArgExn Timeout)],
     inr (Value PyNone)).
Proof.
  apply (@get_bus_vehicles_transport_failure (failing_with Timeout)
           (IdString "1234") Timeout).
  left. split; reflexivity.
Defined.

(** Witnesses of the transport lemmas above. *)
Lemma xml_transport_failure_returns_None_witness :
  run_call (StopsWithKey (PyStr "k") (PyStr "151") (PyStr "Northbound"))
    (failing_with ConnectionError) =
    ([HttpGet getstops_url [("key", PyStr "k"); ("rt", PyStr "151"); ("dir", PyStr "Northbound")];
      Print "Error fetching stops: " (ArgExn ConnectionError)],
     inr (Value PyNone)).
Proof.
  apply (@xml_transport_failure_returns_None (failing_with ConnectionError)
           (StopsWithKey (PyStr "k") (PyStr "151") (PyStr "Northbound")) ConnectionError);
    reflexivity.
Defined.

Lemma xml_http_error_returns_None_witness :
  run_call (RoutesWithKey (PyStr "k")) (serving true server_error) =
    ([HttpGet getroutes_url [("key", PyStr "k")];
      Print "Error fetching routes: " (ArgExn HTTPError)],
     inr (Value PyNone)).
Proof.
  apply (@xml_http_error_returns_None (serving true server_error)
           (RoutesWithKey (PyStr "k")) server_error);
    reflexivity.
Defined.

Lemma get_bus_routes_http_error_returns_None_witness :
  outcome (get_bus_routes (serving true server_error)) = inr (Value PyNone).
Proof.
  apply (@get_bus_routes_http_error_returns_None (serving true server_error) server_error);
    reflexivity.
Defined.

(* ================================================================== *)
(** ** The shape of the tables *)
(* ================================================================== *)

Lemma uniques_seen (seen l : list string) :
  (forall k, In k l -> In k seen) -> pd.uniques seen l = [].
Proof.
  induction l as [|k l IH]; intros Hall; cbn [pd.uniques]; [reflexivity|].
  rewrite (proj2 (existsb_eqb_In k seen) (Hall k (or_introl eq_refl))).
  apply IH. intros k' Hk'. apply Hall. right. exact Hk'.
Qed.

Lemma uniques_fresh_prefix (l rest seen : list string) :
  NoDup l ->
  (forall k, In k l -> ~ In k seen) ->
  pd.uniques seen (l ++ rest) = l ++ pd.uniques (rev l ++ seen) rest.
Proof.
  intros Hnd. revert seen. induction Hnd as [|k l Hk Hnd IH]; intros seen Hfresh.
  - reflexivity.
  - cbn [app pd.uniques].
    destruct (existsb (String.eqb k) seen) eqn:Hex.
    + apply existsb_eqb_In in Hex. exfalso. exact (Hfresh k (or_introl eq_refl) Hex).
    + f_equal. rewrite IH.
      * cbn [rev]. rewrite <- app_assoc. reflexivity.
      * intros k' Hk' [<-|Hin]; [exact (Hk Hk')|].
        exact (Hfresh k' (or_intror Hk') Hin).
Qed.

Lemma uniform_columns (ks : list string) (recs : list record) :
  NoDup ks ->
  recs <> [] ->
  (forall r, In r recs -> keys r = ks) ->
  pd.fast_unique_multiple_list_gen (map keys recs) = ks.
Proof.
  intros Hnd Hne Hall. destruct recs as [|r recs]; [contradiction|].
  unfold pd.fast_unique_multiple_list_gen. cbn [map concat].
  rewrite (Hall r (or_introl eq_refl)).
  rewrite uniques_fresh_prefix by (auto; intros k _ []).
  rewrite uniques_seen; [apply app_nil_r|].
  intros k Hk. apply in_concat in Hk. destruct Hk as [l [Hl Hk]].
  apply in_map_iff in Hl. destruct Hl as [r' [<- Hr']].
  rewrite (Hall r' (or_intror Hr')) in Hk.
  apply in_or_app. left. apply in_rev in Hk. exact Hk.
Qed.

Lemma row_of_own_keys (r : record) :
  NoDup (keys r) ->
  pd.row_of (keys r) r = map (fun kv => pd.Val (snd kv)) r.
Proof.
  unfold pd.row_of. induction r as [|[k v] r IH]; intros Hnd; [reflexivity|].
  cbn [keys map fst snd lookup] in *. inversion Hnd as [|k' l Hk Hnd']; subst.
  rewrite String.eqb_refl. f_equal.
  rewrite <- (IH Hnd'). apply map_ext_in. intros c Hc.
  destruct (String.eqb_spec c k) as [->|Hne]; [contradiction|reflexivity].
Qed.

(** X14.  Every table an XML operation returns is rectangular: each row
    has exactly one cell per column label (assigning the stripped labels
    keeps their number). *)
Theorem table_is_rectangular (env : Env) (c : xml_call) (df : pd.DataFrame) :
  outcome (run_call c env) = inr (Frame df) ->
  Forall (fun row => length row = length (labels df)) (pd.rows df).
Proof.
  intros Hdf.
  destruct (run_call_frame_inv _ _ Hdf) as (envelope & recs & _ & _ & _ & ->).
  rewrite normalized_table_labels, normalized_table_eq. cbn [pd.rows].
  apply Forall_forall. intros row Hrow. apply in_map_iff in Hrow.
  destruct Hrow as [r [<- _]]. unfold pd.row_of. rewrite !length_map. reflexivity.
Qed.

Lemma table_is_rectangular_witness :
  Forall (fun row => length row = length (labels (normalized_table [foster; stop_without_name])))
    (pd.rows (normalized_table [foster; stop_without_name])).
Proof.
  apply (@table_is_rectangular
           (serving true
              (xml_body (PyDict [("stop", PyList [PyDict foster; PyDict stop_without_name])])))
           (StopsWithKey (PyStr "k") (PyStr "151") (PyStr "Northbound"))
           (normalized_table [foster; stop_without_name])).
  reflexivity.
Defined.

(** X15.  Records need not have the same fields: in a returned table, the
    cell of a record under the column of a field the record does not have
    is NaN; the call does not fail on it. *)
Theorem missing_field_is_NaN (env : Env) (c : xml_call) (df : pd.DataFrame) :
  outcome (run_call c env) = inr (Frame df) ->
  exists envelope recs,
    received env c = Some envelope /\
    records_in (record_key c) envelope = Some recs /\
    forall i r j k,
      nth_error recs i = Some r ->
      nth_error (pd.fast_unique_multiple_list_gen (map keys recs)) j = Some k ->
      lookup k r = None ->
      nth_error (labels df) j = Some (strip k) /\ iat df i j = Some pd.NaN.
Proof.
  intros Hdf.
  destruct (run_call_frame_inv _ _ Hdf) as (envelope & recs & Hrecv & _ & Hrecs & ->).
  exists envelope, recs. split; [exact Hrecv|]. split; [exact Hrecs|].
  intros i r j k Hi Hj Hk. split.
  - rewrite normalized_table_labels. apply map_nth_error. exact Hj.
  - unfold iat. rewrite normalized_table_eq. cbn.
    rewrite (map_nth_error _ _ _ Hi). unfold pd.row_of.
    rewrite (map_nth_error _ _ _ Hj). rewrite Hk. reflexivity.
Qed.

Lemma missing_field_is_NaN_witness :
  exists envelope recs,
    received
      (serving true
         (xml_body (PyDict [("stop", PyList [PyDict foster; PyDict stop_without_name])])))
      (StopsWithKey (PyStr "k") (PyStr "151") (PyStr "Northbound")) = Some envelope /\
    records_in "stop" envelope = Some recs /\
    forall i r j k,
      nth_error recs i = Some r ->
      nth_error (pd.fast_unique_multiple_list_gen (map keys recs)) j = Some k ->
      lookup k r = None ->
      nth_error (labels (normalized_table [foster; stop_without_name])) j = Some (strip k) /\
      iat (normalized_table [foster; stop_without_name]) i j = Some pd.NaN.
Proof.
  apply (@missing_field_is_NaN
           (serving true
              (xml_body (PyDict [("stop", PyList [PyDict foster; PyDict stop_without_name])])))
           (StopsWithKey (PyStr "k") (PyStr "151") (PyStr "Northbound"))
           (normalized_table [foster; stop_without_name])).
  reflexivity.
Defined.

(** X16.  When all records have the same field names, in the same order
    and without repetition, and string values (what the API sends), the
    table an XML operation returns is the records themselves: the columns
    are the stripped field names in that order, and each row is the list
    of the values of its record, in that order. *)
Theorem uniform_records_table (env : Env) (c : xml_call) (envelope : record)
    (recs : list record) (ks : list string) :
  received env c = Some envelope ->
  has_key "error" envelope = false ->
  records_in (record_key c) envelope = Some recs ->
  recs <> [] ->
  NoDup ks ->
  (forall r, In r recs -> keys r = ks) ->
  Forall string_valued recs ->
  run_call c env =
    ([HttpGet (call_url c) (call_params c)],
     inr (Frame {| pd.columns := pd.ObjectIndex (map strip ks);
                   pd.rows := map (map (fun kv => pd.Val (snd kv))) recs |})).
Proof.
  intros Hrecv Herr Hrecs Hne Hnd Hall _.
  rewrite (run_call_records env c Hrecv Herr Hrecs Hne).
  rewrite normalized_table_eq. cbv zeta.
  rewrite (uniform_columns Hnd Hne Hall).
  do 4 f_equal. apply map_ext_in. intros r Hr.
  rewrite <- (Hall r Hr). apply row_of_own_keys. rewrite (Hall r Hr). exact Hnd.
Qed.

Lemma sheridan_broadway_string_valued : Forall string_valued [sheridan; broadway].
Proof.
  repeat constructor; cbn; eauto.
Qed.

Lemma rt_rtnm_NoDup : NoDup ["rt"; "rtnm"].
Proof.
  repeat constructor; cbn; intuition discriminate.
Qed.

Lemma uniform_records_table_witness :
  run_call (RoutesWithKey (PyStr "k"))
    (serving true (xml_body (PyDict [("route", PyList [PyDict sheridan; PyDict broadway])]))) =
    ([HttpGet getroutes_url [("key", PyStr "k")]],
     inr (Frame {| pd.columns := pd.ObjectIndex ["rt"; "rtnm"];
                   pd.rows := [[pd.Val (PyStr "151"); pd.Val (PyStr "Sheridan")];
                               [pd.Val (PyStr "36"); pd.Val (PyStr "Broadway")]] |})).
Proof.
  apply (@uniform_records_table
           (serving true
              (xml_body (PyDict [("route", PyList [PyDict sheridan; PyDict broadway])])))
           (RoutesWithKey (PyStr "k"))
           [("route", PyList [PyDict sheridan; PyDict broadway])]
           [sheridan; broadway] ["rt"; "rtnm"]);
    try reflexivity.
  - discriminate.
  - exact rt_rtnm_NoDup.
  - intros r [<-|[<-|[]]]; reflexivity.
  - exact sheridan_broadway_string_valued.
Defined.

(* ================================================================== *)
(** ** The script *)
(* ================================================================== *)

(** X17.  The script never ends in an exception.  What it writes is what
    the routes call does, then what the stops call (route 151, Northbound)
    does, each followed by the title line and the table when the call
    returned a table, and by nothing of the script's own when the call
    returned [None]: the only line then is the call's own.  So both
    requests are always sent, in that order, also when the first fetch
    fails, and the frames printed are exactly the tables returned. *)
Theorem main_runs_both_fetches (env : Env) :
  exists out o1 o2,
    main env = (out, inr tt) /\
    out = o1 ++ o2 /\
    section_of env (RoutesWithKey (API_KEY env)) "Routes DataFrame:" o1 /\
    section_of env (StopsWithKey (API_KEY env) (PyStr "151") (PyStr "Northbound"))
      "Stops DataFrame:" o2 /\
    requests_of out =
      [HttpGet getroutes_url [("key", API_KEY env)];
       HttpGet getstops_url
         [("key", API_KEY env); ("rt", PyStr "151"); ("dir", PyStr "Northbound")]] /\
    frames_printed out =
      frames_of
        [outcome (get_bus_routes_with_key (API_KEY env) env);
         outcome (get_bus_stops_with_key (API_KEY env) (PyStr "151") (PyStr "Northbound") env)].
Proof.
  unfold main, section_of.
  change (get_bus_routes_with_key (API_KEY env) env)
    with (run_call (RoutesWithKey (API_KEY env)) env).
  change (get_bus_stops_with_key (API_KEY env) (PyStr "151") (PyStr "Northbound") env)
    with (run_call (StopsWithKey (API_KEY env) (PyStr "151") (PyStr "Northbound")) env).
  destruct (run_call_cases env (RoutesWithKey (API_KEY env)))
    as [[df1 H1] | (p1 & a1 & H1 & _)];
    destruct (run_call_cases env
                (StopsWithKey (API_KEY env) (PyStr "151") (PyStr "Northbound")))
      as [[df2 H2] | (p2 & a2 & H2 & _)];
    rewrite H1, H2; cbn [is_not_None map app].
  - eexists _, _, _. split; [reflexivity|]. split; [|split; [left; eauto|split; [left; eauto|]]].
    + reflexivity.
    + split; reflexivity.
  - eexists _, _, _. split; [reflexivity|]. split; [|split; [left; eauto|split; [right; eauto|]]].
    + reflexivity.
    + split; reflexivity.
  - eexists _, _, _. split; [reflexivity|]. split; [|split; [right; eauto|split; [left; eauto|]]].
    + reflexivity.
    + split; reflexivity.
  - eexists _, _, _. split; [reflexivity|]. split; [|split; [right; eauto|split; [right; eauto|]]].
    + reflexivity.
    + split; reflexivity.
Qed.

Example main_with_server_error :
  main (serving true server_error) =
    ([Op (HttpGet getroutes_url [("key", PyStr "k")]);
      Op (Print "Error fetching routes: " (ArgExn HTTPError));
      Op (HttpGet getstops_url
            [("key", PyStr "k"); ("rt", PyStr "151"); ("dir", PyStr "Northbound")]);
      Op (Print "Error fetching stops: " (ArgExn HTTPError))],
     inr tt).
Proof. reflexivity. Qed.
